(** * Request forwarding between cluster nodes (vault/request_forwarding.go)

    A shallow embedding of the forwarding handler, the forwarding cluster
    client and the [Core] methods that open, clear and use the outbound
    forwarding connection.  Go statements become steps of a small monad
    that threads the receiver's state, collects the externally visible
    calls (logger, locks, listener, grpc, metrics) in a trace and carries
    run-time panics; [defer] runs its action when the body is left, also
    by a panic. *)

From Stdlib Require Import ZArith Lia.
From stdpp Require Import base strings gmap list.

Local Open Scope string_scope.
Local Open Scope list_scope.

(** ** Values *)

Abbreviation bytes := (list Byte.byte).

#[global] Instance byte_eq_dec : EqDecision Byte.byte := Byte.byte_eq_dec.

(** Go's [error] interface: the package sentinel [ErrCannotForward] and
    values built by [errors.New] / [fmt.Errorf] or handed back by a library. *)
Inductive error :=
| ErrCannotForward
| errorString (msg : string).

#[global] Instance error_eq_dec : EqDecision error.
Proof. solve_decision. Defined.

(** The cell of a [sync/atomic.Value]: nothing stored yet, or a value of
    the one concrete type the code asserts on [Load]. *)
Inductive atomicValue (T : Type) :=
| Unset
| Stored (v : T).
Arguments Unset {T}.
Arguments Stored {T} v.

(** The part of an [x509.Certificate] the forwarding code reads. *)
Record x509Certificate := {
  RawIssuer : bytes;
  SubjectCommonName : string;
  Raw : bytes
}.

Record ecdsaPrivateKey := { keyD : Z }.

(** [tls.Certificate]; the pointers [PrivateKey] and [Leaf] may be nil. *)
Record tlsCertificate := {
  Certificate : list bytes;
  PrivateKey : option ecdsaPrivateKey;
  Leaf : option x509Certificate
}.

Record CertificateRequestInfo := { AcceptableCAs : list bytes }.
Record ClientHelloInfo := { HelloServerName : string }.

(** The dynamic values a [context.Context] can hold under a key. *)
Inductive any :=
| any_string (s : string)
| any_int (n : Z)
| any_bytes (b : bytes).

Record URL := {
  Scheme : string;
  Host : string;
  Path : string;
  RawQuery : string
}.

Definition URL_with_Path (u : URL) (p : string) : URL :=
  {| Scheme := Scheme u; Host := Host u; Path := p; RawQuery := RawQuery u |}.

(** [http.Request]: [req_URL] is a pointer, [req_ctx] the values of the
    request's context (the empty map for the background context), [Body]
    the request's body reader, given by the content not yet read from it. *)
Record Request := {
  Method : string;
  req_URL : option URL;
  Header : gmap string (list string);
  Body : bytes;
  req_ctx : gmap string any
}.

Definition Request_with_URL (r : Request) (u : option URL) : Request :=
  {| Method := Method r; req_URL := u; Header := Header r;
     Body := Body r; req_ctx := req_ctx r |}.

Definition Request_with_Body (r : Request) (b : bytes) : Request :=
  {| Method := Method r; req_URL := req_URL r; Header := Header r;
     Body := b; req_ctx := req_ctx r |}.

(** Modelled from the spec: the wire records of the forwarding RPC, declared
    by the generated code of helper/forwarding.  A header entry carries an
    ordered list of values; a Go map that is nil is [None]. *)
Record HeaderEntry := { Values : list string }.

Record ForwardedRequest := {
  fq_Method : string;
  fq_Path : string;
  fq_HeaderEntries : option (gmap string HeaderEntry);
  fq_Body : bytes
}.

Record Response := {
  StatusCode : Z;
  HeaderEntries : option (gmap string HeaderEntry);
  resp_Body : option bytes
}.

(** [forwardingClient]: the RPC stub over a connection, the heartbeat
    ticker and the context the heartbeat runs under. *)
Record forwardingClient := {
  fc_conn : option nat;
  echoTicker : Z;
  echoContext : nat
}.

(** ** Trace of external calls *)

Inductive logLevel := Debug | Error.

Inductive Event :=
| EvLog (lvl : logLevel) (msg : string)
| EvLock
| EvUnlock
| EvRLock
| EvRUnlock
| EvCancel (ctx : nat)
| EvConnClose (conn : nat)
| EvRemoveClient (alpn : string)
| EvAddClient (alpn : string)
| EvAddHandler (alpn : string)
| EvWithCancel (parent child : nat)
| EvDialOk (ctx : nat) (host : string) (conn : nat)
| EvDialErr (ctx : nat) (host : string) (e : error)
| EvNewTicker (period : Z)
| EvStartHeartbeat (ctx : nat)
| EvSleep (d : Z)
| EvCloseStopCh
| EvRPCServerStop
| EvTimeNow
| EvMeasureSince (key : list string)
| EvIncrCounter (key : list string)
| EvGenerateForwardedRequest (req : Request)
| EvRPCForwardRequest (client : forwardingClient) (freq : ForwardedRequest).

(** ** The monad of method bodies *)

Inductive outcome (A : Type) :=
| Returned (a : A)
| Panicked (msg : string).
Arguments Returned {A} a.
Arguments Panicked {A} msg.

Definition M (S A : Type) : Type := S → outcome A * S * list Event.

Definition ret {S A} (a : A) : M S A := λ s, (Returned a, s, []).

Definition bind {S A B} (m : M S A) (k : A → M S B) : M S B := λ s,
  match m s with
  | (Returned a, s1, t1) =>
      let '(r, s2, t2) := k a s1 in (r, s2, t1 ++ t2)
  | (Panicked p, s1, t1) => (Panicked p, s1, t1)
  end.

Definition emit {S} (e : Event) : M S unit := λ s, (Returned tt, s, [e]).
Definition panic {S A} (msg : string) : M S A := λ s, (Panicked msg, s, []).
Definition get {S} : M S S := λ s, (Returned s, s, []).
Definition modify {S} (f : S → S) : M S unit := λ s, (Returned tt, f s, []).

(** [defer d body]: [d] runs when [body] is left, by return or by panic;
    the result of [body] stands unless [d] panics itself. *)
Definition defer {S A} (d : M S unit) (body : M S A) : M S A := λ s,
  let '(r, s1, t1) := body s in
  let '(rd, s2, t2) := d s1 in
  (match rd with Panicked p => Panicked p | Returned _ => r end, s2, t1 ++ t2).

#[global] Instance M_ret {S} : MRet (M S) := λ A, ret.
#[global] Instance M_bind {S} : MBind (M S) := λ A B k m, bind m k.

(** [v.Load().(T)]: the unchecked assertion panics on a cell never stored. *)
Definition Load {S T} (v : atomicValue T) : M S T :=
  match v with
  | Stored x => mret x
  | Unset => panic "interface conversion: interface is nil"
  end.

(** [*p] on a pointer that may be nil. *)
Definition deref {S T} (p : option T) : M S T :=
  match p with
  | Some x => mret x
  | None => panic "invalid memory address or nil pointer dereference"
  end.

(** ** The cluster listener, the handler and the core *)

(** The client registered for outbound forwarding connections,
    [&requestForwardingClusterClient{core: c}]. *)
Inductive ClusterClient := requestForwardingClusterClient.

Record requestForwardingHandler := {
  rf_ha : bool;
  fwRPCServer_registered : bool;
  fwRPCServer_stopped : bool;
  stopCh_closed : bool
}.

(** Modelled from the spec: the shared cluster listener of vault/cluster, of
    which only the calls are under src/.  It associates a protocol tag with
    the inbound handler and with the outbound client-identity provider;
    [AddClient] registers the provider under the tag and [RemoveClient]
    removes it. *)
Record Listener := {
  clients : gmap string ClusterClient;
  handlers : gmap string requestForwardingHandler
}.

Definition AddClient (alpn : string) (cl : ClusterClient) (l : Listener) : Listener :=
  {| clients := <[alpn := cl]> (clients l); handlers := handlers l |}.

Definition RemoveClient (alpn : string) (l : Listener) : Listener :=
  {| clients := delete alpn (clients l); handlers := handlers l |}.

Definition AddHandler (alpn : string) (h : requestForwardingHandler) (l : Listener) : Listener :=
  {| clients := clients l; handlers := <[alpn := h]> (handlers l) |}.

(** The fields of [Core] the forwarding code touches.  Connections and
    contexts are handles; [nextHandle] is the allocator of fresh ones. *)
Record Core := {
  ha : bool;
  clusterHandler : bool;
  clusterHeartbeatInterval : Z;
  localClusterCert : atomicValue bytes;
  localClusterParsedCert : atomicValue (option x509Certificate);
  localClusterPrivateKey : atomicValue (option ecdsaPrivateKey);
  clusterListener : option Listener;
  clusterLeaderParams : atomicValue (option nat);
  rpcClientConnCancelFunc : option nat;
  rpcClientConn : option nat;
  rpcClientConnContext : option nat;
  rpcForwardingClient : option forwardingClient;
  nextHandle : nat
}.

Definition set_clusterListener (v : option Listener) (c : Core) : Core :=
  {| ha := ha c; clusterHandler := clusterHandler c;
     clusterHeartbeatInterval := clusterHeartbeatInterval c;
     localClusterCert := localClusterCert c;
     localClusterParsedCert := localClusterParsedCert c;
     localClusterPrivateKey := localClusterPrivateKey c;
     clusterListener := v;
     clusterLeaderParams := clusterLeaderParams c;
     rpcClientConnCancelFunc := rpcClientConnCancelFunc c;
     rpcClientConn := rpcClientConn c;
     rpcClientConnContext := rpcClientConnContext c;
     rpcForwardingClient := rpcForwardingClient c;
     nextHandle := nextHandle c |}.

Definition set_clusterLeaderParams (v : atomicValue (option nat)) (c : Core) : Core :=
  {| ha := ha c; clusterHandler := clusterHandler c;
     clusterHeartbeatInterval := clusterHeartbeatInterval c;
     localClusterCert := localClusterCert c;
     localClusterParsedCert := localClusterParsedCert c;
     localClusterPrivateKey := localClusterPrivateKey c;
     clusterListener := clusterListener c;
     clusterLeaderParams := v;
     rpcClientConnCancelFunc := rpcClientConnCancelFunc c;
     rpcClientConn := rpcClientConn c;
     rpcClientConnContext := rpcClientConnContext c;
     rpcForwardingClient := rpcForwardingClient c;
     nextHandle := nextHandle c |}.

Definition set_rpcClientConnCancelFunc (v : option nat) (c : Core) : Core :=
  {| ha := ha c; clusterHandler := clusterHandler c;
     clusterHeartbeatInterval := clusterHeartbeatInterval c;
     localClusterCert := localClusterCert c;
     localClusterParsedCert := localClusterParsedCert c;
     localClusterPrivateKey := localClusterPrivateKey c;
     clusterListener := clusterListener c;
     clusterLeaderParams := clusterLeaderParams c;
     rpcClientConnCancelFunc := v;
     rpcClientConn := rpcClientConn c;
     rpcClientConnContext := rpcClientConnContext c;
     rpcForwardingClient := rpcForwardingClient c;
     nextHandle := nextHandle c |}.

Definition set_rpcClientConn (v : option nat) (c : Core) : Core :=
  {| ha := ha c; clusterHandler := clusterHandler c;
     clusterHeartbeatInterval := clusterHeartbeatInterval c;
     localClusterCert := localClusterCert c;
     localClusterParsedCert := localClusterParsedCert c;
     localClusterPrivateKey := localClusterPrivateKey c;
     clusterListener := clusterListener c;
     clusterLeaderParams := clusterLeaderParams c;
     rpcClientConnCancelFunc := rpcClientConnCancelFunc c;
     rpcClientConn := v;
     rpcClientConnContext := rpcClientConnContext c;
     rpcForwardingClient := rpcForwardingClient c;
     nextHandle := nextHandle c |}.

Definition set_rpcClientConnContext (v : option nat) (c : Core) : Core :=
  {| ha := ha c; clusterHandler := clusterHandler c;
     clusterHeartbeatInterval := clusterHeartbeatInterval c;
     localClusterCert := localClusterCert c;
     localClusterParsedCert := localClusterParsedCert c;
     localClusterPrivateKey := localClusterPrivateKey c;
     clusterListener := clusterListener c;
     clusterLeaderParams := clusterLeaderParams c;
     rpcClientConnCancelFunc := rpcClientConnCancelFunc c;
     rpcClientConn := rpcClientConn c;
     rpcClientConnContext := v;
     rpcForwardingClient := rpcForwardingClient c;
     nextHandle := nextHandle c |}.

Definition set_rpcForwardingClient (v : option forwardingClient) (c : Core) : Core :=
  {| ha := ha c; clusterHandler := clusterHandler c;
     clusterHeartbeatInterval := clusterHeartbeatInterval c;
     localClusterCert := localClusterCert c;
     localClusterParsedCert := localClusterParsedCert c;
     localClusterPrivateKey := localClusterPrivateKey c;
     clusterListener := clusterListener c;
     clusterLeaderParams := clusterLeaderParams c;
     rpcClientConnCancelFunc := rpcClientConnCancelFunc c;
     rpcClientConn := rpcClientConn c;
     rpcClientConnContext := rpcClientConnContext c;
     rpcForwardingClient := v;
     nextHandle := nextHandle c |}.

Definition set_nextHandle (v : nat) (c : Core) : Core :=
  {| ha := ha c; clusterHandler := clusterHandler c;
     clusterHeartbeatInterval := clusterHeartbeatInterval c;
     localClusterCert := localClusterCert c;
     localClusterParsedCert := localClusterParsedCert c;
     localClusterPrivateKey := localClusterPrivateKey c;
     clusterListener := clusterListener c;
     clusterLeaderParams := clusterLeaderParams c;
     rpcClientConnCancelFunc := rpcClientConnCancelFunc c;
     rpcClientConn := rpcClientConn c;
     rpcClientConnContext := rpcClientConnContext c;
     rpcForwardingClient := rpcForwardingClient c;
     nextHandle := v |}.

(** What the forwarding code takes from outside this file: two constants
    ([consts.RequestForwardingALPN], [cluster.ListenerAcceptDeadline]) and
    the library and helper calls whose answers it branches on.
    [url.Parse] and the RPC stub answer with a value or an error;
    [grpc.DialContext] answers with an error or nothing, given the dial
    context and the target; [forwarding.GenerateForwardedRequest] is
    handed the request, reads its fields and reads from its body, and
    answers with Go's pair of a pointer and an error, both of which the
    caller tests, together with what it leaves unread of the body. *)
Record Env := {
  RequestForwardingALPN : string;
  ListenerAcceptDeadline : Z;
  url_Parse : string → URL + error;
  grpc_DialContext : nat → string → option error;
  GenerateForwardedRequest :
    Request → (option ForwardedRequest * option error) * bytes;
  RequestForwardingClient_ForwardRequest :
    forwardingClient → ForwardedRequest → Response + error
}.

(** ** The methods *)

Section Forwarding.
Variable E : Env.

Definition ALPN : string := RequestForwardingALPN E.

(** [NewRequestForwardingHandler]: [ha] is resolved once; the RPC service is
    registered only on an HA node with a cluster handler; the stop channel
    is open. *)
Definition NewRequestForwardingHandler (c : Core) : requestForwardingHandler * option error :=
  let ha := ha c in
  ({| rf_ha := ha;
      fwRPCServer_registered := ha && clusterHandler c;
      fwRPCServer_stopped := false;
      stopCh_closed := false |}, None).

(** The body of the [for ... range requestInfo.AcceptableCAs] loop of
    [ClientLookup]: the first subject equal to the issuer returns the local
    certificate; [None] when the loop falls through. *)
Fixpoint ClientLookup_range (localCert issuer : bytes) (subjs : list bytes)
  : M Core (option (option tlsCertificate * option error)) :=
  match subjs with
  | [] => mret None
  | subj :: rest =>
      if decide (subj = issuer) then
        c ← get;
        key ← Load (localClusterPrivateKey c);
        leaf ← Load (localClusterParsedCert c);
        mret (Some (Some {| Certificate := [localCert];
                            PrivateKey := key;
                            Leaf := leaf |}, None))
      else ClientLookup_range localCert issuer rest
  end.

Definition ClientLookup (requestInfo : CertificateRequestInfo)
  : M Core (option tlsCertificate * option error) :=
  c ← get;
  parsedCert ← Load (localClusterParsedCert c);
  match parsedCert with
  | None => mret (None, None)
  | Some parsedCert =>
      currCert ← Load (localClusterCert c);
      if decide (length currCert = 0%nat) then mret (None, None)
      else
        let localCert := currCert in
        r ← ClientLookup_range localCert (RawIssuer parsedCert)
              (AcceptableCAs requestInfo);
        match r with
        | Some res => mret res
        | None => mret (None, None)
        end
  end.

Definition ServerName : M Core string :=
  c ← get;
  parsedCert ← Load (localClusterParsedCert c);
  match parsedCert with
  | None => mret ""
  | Some parsedCert => mret (SubjectCommonName parsedCert)
  end.

Definition CACert : M Core (option x509Certificate) :=
  c ← get;
  Load (localClusterParsedCert c).

Definition ServerLookup (clientHello : ClientHelloInfo)
  : M Core (option tlsCertificate * option error) :=
  c ← get;
  currCert ← Load (localClusterCert c);
  if decide (length currCert = 0%nat) then
    mret (None, Some (errorString "got forwarding connection but no local cert"))
  else
    let localCert := currCert in
    key ← Load (localClusterPrivateKey c);
    leaf ← Load (localClusterParsedCert c);
    mret (Some {| Certificate := [localCert]; PrivateKey := key; Leaf := leaf |},
          None).

Definition CALookup : M Core (option (list x509Certificate) * option error) :=
  c ← get;
  parsedCert ← Load (localClusterParsedCert c);
  match parsedCert with
  | None => mret (None, Some (errorString "forwarding connection client but no local cert"))
  | Some parsedCert => mret (Some [parsedCert], None)
  end.

(** [close(rf.stopCh)]: closing a closed channel panics. *)
Definition close_stopCh : M requestForwardingHandler unit :=
  rf ← get;
  if stopCh_closed rf then panic "close of closed channel"
  else
    emit EvCloseStopCh;;
    modify (λ rf, {| rf_ha := rf_ha rf;
                     fwRPCServer_registered := fwRPCServer_registered rf;
                     fwRPCServer_stopped := fwRPCServer_stopped rf;
                     stopCh_closed := true |}).

Definition fwRPCServer_Stop : M requestForwardingHandler unit :=
  emit EvRPCServerStop;;
  modify (λ rf, {| rf_ha := rf_ha rf;
                   fwRPCServer_registered := fwRPCServer_registered rf;
                   fwRPCServer_stopped := true;
                   stopCh_closed := stopCh_closed rf |}).

Definition Stop : M requestForwardingHandler (option error) :=
  emit (EvSleep (ListenerAcceptDeadline E));;
  close_stopCh;;
  fwRPCServer_Stop;;
  mret None.

Definition clearForwardingClients : M Core unit :=
  emit (EvLog Debug "clearing forwarding clients");;
  defer (emit (EvLog Debug "done clearing forwarding clients")) (
    c ← get;
    match rpcClientConnCancelFunc c with
    | Some cancel =>
        emit (EvCancel cancel);;
        modify (set_rpcClientConnCancelFunc None)
    | None => mret tt
    end;;
    c ← get;
    match rpcClientConn c with
    | Some conn =>
        emit (EvConnClose conn);;
        modify (set_rpcClientConn None)
    | None => mret tt
    end;;
    modify (set_rpcClientConnContext None);;
    modify (set_rpcForwardingClient None);;
    c ← get;
    match clusterListener c with
    | Some clusterListener =>
        emit (EvRemoveClient ALPN);;
        modify (set_clusterListener (Some (RemoveClient ALPN clusterListener)))
    | None => mret tt
    end;;
    modify (set_clusterLeaderParams (Stored None))).

(** [time.NewTicker(d)] panics unless [d] is positive. *)
Definition NewTicker (d : Z) : M Core unit :=
  if decide (0 < d)%Z then emit (EvNewTicker d)
  else panic "non-positive interval for NewTicker".

(** [context.WithCancel(ctx)]: a fresh context handle, which is also the
    handle of its cancel function. *)
Definition WithCancel (ctx : nat) : M Core nat :=
  c ← get;
  let dctx := nextHandle c in
  modify (set_nextHandle (S dctx));;
  emit (EvWithCancel ctx dctx);;
  mret dctx.

(** [grpc.DialContext(dctx, target, ...)]: a fresh connection handle and no
    error, or no connection and the error. *)
Definition DialContext (dctx : nat) (target : string) : M Core (option nat * option error) :=
  match grpc_DialContext E dctx target with
  | Some err =>
      emit (EvDialErr dctx target err);;
      mret (None, Some err)
  | None =>
      c ← get;
      let conn := nextHandle c in
      modify (set_nextHandle (S conn));;
      emit (EvDialOk dctx target conn);;
      mret (Some conn, None)
  end.

Definition refreshRequestForwardingConnection (ctx : nat) (clusterAddr : string)
  : M Core (option error) :=
  emit (EvLog Debug "refreshing forwarding connection");;
  defer (emit (EvLog Debug "done refreshing forwarding connection")) (
  emit EvLock;;
  defer (emit EvUnlock) (
  clearForwardingClients;;
  if decide (clusterAddr = "") then mret None
  else
    match url_Parse E clusterAddr with
    | inr err =>
        emit (EvLog Error "error parsing cluster address attempting to refresh forwarding connection");;
        mret (Some err)
    | inl clusterURL =>
        c ← get;
        parsedCert ← Load (localClusterParsedCert c);
        match parsedCert with
        | None =>
            emit (EvLog Error "no request forwarding cluster certificate found");;
            mret (Some (errorString "no request forwarding cluster certificate found"))
        | Some _ =>
            match clusterListener c with
            | None =>
                emit (EvLog Error "no cluster listener configured");;
                mret None
            | Some clusterListener =>
                emit (EvAddClient ALPN);;
                modify (set_clusterListener
                          (Some (AddClient ALPN requestForwardingClusterClient
                                   clusterListener)));;
                dctx ← WithCancel ctx;
                '(conn, err) ← DialContext dctx (Host clusterURL);
                modify (set_rpcClientConn conn);;
                match err with
                | Some err =>
                    emit (EvCancel dctx);;
                    emit (EvLog Error "err setting up forwarding rpc client");;
                    mret (Some err)
                | None =>
                    modify (set_rpcClientConnContext (Some dctx));;
                    modify (set_rpcClientConnCancelFunc (Some dctx));;
                    c ← get;
                    NewTicker (clusterHeartbeatInterval c);;
                    modify (set_rpcForwardingClient
                              (Some {| fc_conn := rpcClientConn c;
                                       echoTicker := clusterHeartbeatInterval c;
                                       echoContext := dctx |}));;
                    emit (EvStartHeartbeat dctx);;
                    mret None
                end
            end
        end
    end)).

Definition startForwarding (ctx : nat) : M Core (option error) :=
  emit (EvLog Debug "request forwarding setup function");;
  defer (emit (EvLog Debug "leaving request forwarding setup function")) (
    emit EvLock;;
    clearForwardingClients;;
    emit EvUnlock;;
    c ← get;
    match clusterListener c with
    | Some clusterListener =>
        if ha c then
          let '(handler, err) := NewRequestForwardingHandler c in
          match err with
          | Some err => mret (Some err)
          | None =>
              emit (EvAddHandler ALPN);;
              modify (set_clusterListener
                        (Some (AddHandler ALPN handler clusterListener)));;
              mret None
          end
        else
          emit (EvLog Debug "request forwarding not setup");;
          mret None
    | None =>
        emit (EvLog Debug "request forwarding not setup");;
        mret None
    end).

(** [req.URL.Path = p] *)
Definition set_URL_Path (p : string) : M Request unit :=
  req ← get;
  u ← deref (req_URL req);
  modify (λ req, Request_with_URL req (Some (URL_with_Path u p))).

(** [req.Context().Value(key).(string)]: the unchecked assertion panics
    unless the context holds a string under the key. *)
Definition ctx_Value_string (key : string) : M Request string :=
  req ← get;
  match req_ctx req !! key with
  | Some (any_string s) => mret s
  | Some _ => panic "interface conversion: interface {} is not string"
  | None => panic "interface conversion: interface {} is nil, not string"
  end.

(** The [for k, v := range resp.HeaderEntries] loop filling a fresh
    [http.Header]. *)
Definition header_of_entries (entries : gmap string HeaderEntry)
  : gmap string (list string) :=
  map_fold (λ k v header, <[k := Values v]> header) ∅ entries.

Definition ForwardRequest (c : Core)
  : M Request (Z * option (gmap string (list string)) * option bytes * option error) :=
  emit EvRLock;;
  defer (emit EvRUnlock) (
  match rpcForwardingClient c with
  | None => mret (0%Z, None, None, Some ErrCannotForward)
  | Some client =>
      emit EvTimeNow;;
      defer (emit (EvMeasureSince ["ha"; "rpc"; "client"; "forward"])) (
      req ← get;
      u ← deref (req_URL req);
      let origPath := Path u in
      defer (set_URL_Path origPath) (
      p ← ctx_Value_string "original_request_path";
      set_URL_Path p;;
      req ← get;
      emit (EvGenerateForwardedRequest req);;
      modify (λ r, Request_with_Body r (GenerateForwardedRequest E req).2);;
      match (GenerateForwardedRequest E req).1 with
      | (_, Some err) =>
          emit (EvLog Error "error creating forwarding RPC request");;
          mret (0%Z, None, None,
                Some (errorString "error creating forwarding RPC request"))
      | (None, None) =>
          emit (EvLog Error "got nil forwarding RPC request");;
          mret (0%Z, None, None,
                Some (errorString "got nil forwarding RPC request"))
      | (Some freq, None) =>
          emit (EvRPCForwardRequest client freq);;
          match RequestForwardingClient_ForwardRequest E client freq with
          | inr err =>
              emit (EvIncrCounter ["ha"; "rpc"; "client"; "forward"; "errors"]);;
              emit (EvLog Error "error during forwarded RPC request");;
              mret (0%Z, None, None,
                    Some (errorString "error during forwarding RPC request"))
          | inl resp =>
              let header :=
                match HeaderEntries resp with
                | Some entries => Some (header_of_entries entries)
                | None => None
                end in
              mret (StatusCode resp, header, resp_Body resp, None)
          end
      end))
  end).

End Forwarding.

(** ** Reading traces *)

(** The connections open after a run: a successful dial opens one, [Close]
    closes it. *)
Definition step_live (l : list nat) (e : Event) : list nat :=
  match e with
  | EvDialOk _ _ conn => conn :: l
  | EvConnClose conn => filter (λ x, x ≠ conn) l
  | _ => l
  end.

Definition live_from (l : list nat) (t : list Event) : list nat :=
  foldl step_live l t.

Definition live_conns (t : list Event) : list nat := live_from [] t.

(** At every observation point of the history at most one connection is
    open. *)
Definition AtMostOneLive (h : list Event) : Prop :=
  ∀ p, p `prefix_of` h → (length (live_conns p) ≤ 1)%nat.

(** The events by which a refresh starts to set up a connection. *)
Definition establishes (e : Event) : bool :=
  match e with
  | EvAddClient _ | EvWithCancel _ _ | EvDialOk _ _ _ | EvDialErr _ _ _
  | EvNewTicker _ | EvStartHeartbeat _ => true
  | _ => false
  end.

Definition is_sleep (e : Event) : bool :=
  match e with EvSleep _ => true | _ => false end.
Definition is_close_stopCh (e : Event) : bool :=
  match e with EvCloseStopCh => true | _ => false end.
Definition is_server_stop (e : Event) : bool :=
  match e with EvRPCServerStop => true | _ => false end.

(** Some event satisfying [P] is followed, later in the trace, by one
    satisfying [Q]. *)
Fixpoint occurs_before (P Q : Event → bool) (t : list Event) : bool :=
  match t with
  | [] => false
  | e :: t' => (P e && existsb Q t') || occurs_before P Q t'
  end.

(** The open connections of the history are exactly the one the core
    holds. *)
Definition tracks (h : list Event) (c : Core) : Prop :=
  live_conns h = option_list (rpcClientConn c).

(** No forwarding connection state: the four fields are nil and the
    listener, if any, has no client registered under the forwarding tag. *)
Definition cleared (E : Env) (c : Core) : Prop :=
  rpcClientConnCancelFunc c = None ∧
  rpcClientConn c = None ∧
  rpcClientConnContext c = None ∧
  rpcForwardingClient c = None ∧
  ∀ l, clusterListener c = Some l → clients l !! ALPN E = None.

(** The cells of the local cluster identity have been stored. *)
Definition identity_stored (c : Core) (b : bytes) (p : option x509Certificate)
    (k : option ecdsaPrivateKey) : Prop :=
  localClusterCert c = Stored b ∧
  localClusterParsedCert c = Stored p ∧
  localClusterPrivateKey c = Stored k.

(** The request as the serializer sees it: the caller's request with the
    path taken from the context. *)
Definition rewritten (req : Request) (u : URL) (p : string) : Request :=
  Request_with_URL req (Some (URL_with_Path u p)).

(** The caller's request as it is handed back once the serializer has run:
    the fields as received, the body as the serializer left it. *)
Definition handed_back (E : Env) (req : Request) (u : URL) (p : string) : Request :=
  Request_with_Body req (GenerateForwardedRequest E (rewritten req u p)).2.


Definition sent (t : list Event) : list (forwardingClient * ForwardedRequest) :=
  omap (λ e, match e with EvRPCForwardRequest cl fq => Some (cl, fq) | _ => None end) t.

Definition measure_key : list string := ["ha"; "rpc"; "client"; "forward"].

(** The core as [clearForwardingClients] leaves it. *)
Definition cleared_core (E : Env) (c : Core) : Core :=
  {| ha := ha c; clusterHandler := clusterHandler c;
     clusterHeartbeatInterval := clusterHeartbeatInterval c;
     localClusterCert := localClusterCert c;
     localClusterParsedCert := localClusterParsedCert c;
     localClusterPrivateKey := localClusterPrivateKey c;
     clusterListener := RemoveClient (ALPN E) <$> clusterListener c;
     clusterLeaderParams := Stored None;
     rpcClientConnCancelFunc := None;
     rpcClientConn := None;
     rpcClientConnContext := None;
     rpcForwardingClient := None;
     nextHandle := nextHandle c |}.

(** The calls [clearForwardingClients] makes, in order. *)
Definition clear_trace (E : Env) (c : Core) : list Event :=
  [EvLog Debug "clearing forwarding clients"] ++
  match rpcClientConnCancelFunc c with Some cancel => [EvCancel cancel] | None => [] end ++
  match rpcClientConn c with Some conn => [EvConnClose conn] | None => [] end ++
  match clusterListener c with Some _ => [EvRemoveClient (ALPN E)] | None => [] end ++
  [EvLog Debug "done clearing forwarding clients"].

(** The core after a refresh that registered the client and dialled:
    [conn] is what the dial returned; the context and the cancel function
    are stored once the dial succeeded, the client once its ticker is
    made. *)
Definition dialled_core (E : Env) (cc : Core) (l : Listener) (next : nat)
    (conn cancel dctx : option nat) (client : option forwardingClient) : Core :=
  {| ha := ha cc; clusterHandler := clusterHandler cc;
     clusterHeartbeatInterval := clusterHeartbeatInterval cc;
     localClusterCert := localClusterCert cc;
     localClusterParsedCert := localClusterParsedCert cc;
     localClusterPrivateKey := localClusterPrivateKey cc;
     clusterListener := Some (AddClient (ALPN E) requestForwardingClusterClient l);
     clusterLeaderParams := clusterLeaderParams cc;
     rpcClientConnCancelFunc := cancel;
     rpcClientConn := conn;
     rpcClientConnContext := dctx;
     rpcForwardingClient := client;
     nextHandle := next |}.

(** The ways [refreshRequestForwardingConnection] goes on after the clear,
    from the cleared core [cc]: the result, the core it leaves and the
    calls it makes. *)
Inductive connects (E : Env) (ctx : nat) (clusterAddr : string) (cc : Core)
  : outcome (option error) → Core → list Event → Prop :=
| connects_nothing :
    clusterAddr = "" →
    connects E ctx clusterAddr cc (Returned None) cc []
| connects_parse_error err :
    clusterAddr ≠ "" →
    url_Parse E clusterAddr = inr err →
    connects E ctx clusterAddr cc (Returned (Some err)) cc
      [EvLog Error "error parsing cluster address attempting to refresh forwarding connection"]
| connects_cert_unset clusterURL :
    clusterAddr ≠ "" →
    url_Parse E clusterAddr = inl clusterURL →
    localClusterParsedCert cc = Unset →
    connects E ctx clusterAddr cc
      (Panicked "interface conversion: interface is nil") cc []
| connects_no_cert clusterURL :
    clusterAddr ≠ "" →
    url_Parse E clusterAddr = inl clusterURL →
    localClusterParsedCert cc = Stored None →
    connects E ctx clusterAddr cc
      (Returned (Some (errorString "no request forwarding cluster certificate found")))
      cc [EvLog Error "no request forwarding cluster certificate found"]
| connects_no_listener clusterURL parsedCert :
    clusterAddr ≠ "" →
    url_Parse E clusterAddr = inl clusterURL →
    localClusterParsedCert cc = Stored (Some parsedCert) →
    clusterListener cc = None →
    connects E ctx clusterAddr cc (Returned None) cc
      [EvLog Error "no cluster listener configured"]
| connects_dial_error clusterURL parsedCert l err :
    clusterAddr ≠ "" →
    url_Parse E clusterAddr = inl clusterURL →
    localClusterParsedCert cc = Stored (Some parsedCert) →
    clusterListener cc = Some l →
    grpc_DialContext E (nextHandle cc) (Host clusterURL) = Some err →
    connects E ctx clusterAddr cc (Returned (Some err))
      (dialled_core E cc l (S (nextHandle cc)) None None None None)
      [EvAddClient (ALPN E); EvWithCancel ctx (nextHandle cc);
       EvDialErr (nextHandle cc) (Host clusterURL) err;
       EvCancel (nextHandle cc);
       EvLog Error "err setting up forwarding rpc client"]
| connects_dial_ok clusterURL parsedCert l :
    clusterAddr ≠ "" →
    url_Parse E clusterAddr = inl clusterURL →
    localClusterParsedCert cc = Stored (Some parsedCert) →
    clusterListener cc = Some l →
    grpc_DialContext E (nextHandle cc) (Host clusterURL) = None →
    (0 < clusterHeartbeatInterval cc)%Z →
    connects E ctx clusterAddr cc (Returned None)
      (dialled_core E cc l (S (S (nextHandle cc)))
         (Some (S (nextHandle cc))) (Some (nextHandle cc)) (Some (nextHandle cc))
         (Some {| fc_conn := Some (S (nextHandle cc));
                  echoTicker := clusterHeartbeatInterval cc;
                  echoContext := nextHandle cc |}))
      [EvAddClient (ALPN E); EvWithCancel ctx (nextHandle cc);
       EvDialOk (nextHandle cc) (Host clusterURL) (S (nextHandle cc));
       EvNewTicker (clusterHeartbeatInterval cc);
       EvStartHeartbeat (nextHandle cc)]
| connects_ticker_panic clusterURL parsedCert l :
    clusterAddr ≠ "" →
    url_Parse E clusterAddr = inl clusterURL →
    localClusterParsedCert cc = Stored (Some parsedCert) →
    clusterListener cc = Some l →
    grpc_DialContext E (nextHandle cc) (Host clusterURL) = None →
    ¬ (0 < clusterHeartbeatInterval cc)%Z →
    connects E ctx clusterAddr cc
      (Panicked "non-positive interval for NewTicker")
      (dialled_core E cc l (S (S (nextHandle cc)))
         (Some (S (nextHandle cc))) (Some (nextHandle cc)) (Some (nextHandle cc))
         None)
      [EvAddClient (ALPN E); EvWithCancel ctx (nextHandle cc);
       EvDialOk (nextHandle cc) (Host clusterURL) (S (nextHandle cc))].

(** Along [t], started with the connections [l] open, never more than one
    connection is open. *)
Fixpoint bounded_from (l : list nat) (t : list Event) : Prop :=
  match t with
  | [] => True
  | e :: t' => (length (step_live l e) ≤ 1)%nat ∧ bounded_from (step_live l e) t'
  end.

(** The calls of a refresh up to the end of the clear. *)
Definition refresh_prologue (E : Env) (c : Core) : list Event :=
  [EvLog Debug "refreshing forwarding connection"; EvLock] ++ clear_trace E c.

(** A run of refreshes, one after the other, with the calls they make. *)
Fixpoint refresh_all (E : Env) (calls : list (nat * string)) (c : Core)
  : Core * list Event :=
  match calls with
  | [] => (c, [])
  | (ctx, clusterAddr) :: rest =>
      let '(_, c1, t1) := refreshRequestForwardingConnection E ctx clusterAddr c in
      let '(c2, t2) := refresh_all E rest c1 in
      (c2, t1 ++ t2)
  end.

(** ** Concrete instances *)

Definition resp0 : Response :=
  {| StatusCode := 200;
     HeaderEntries := Some {[ "X-Echo" := {| Values := ["ok"] |} ]};
     resp_Body := Some [Byte.x64; Byte.x6f; Byte.x6e; Byte.x65] |}.

(** An environment for the examples: every address but "%" parses, every
    target but "unreachable:8201" can be dialled, the serializer copies the
    request into the wire record and reads the body to its end, and the
    active node answers every forwarded request with [resp0]. *)
Definition env0 : Env :=
  {| RequestForwardingALPN := "req_fw_sb-act_v1";
     ListenerAcceptDeadline := 500;
     url_Parse := λ s,
       if decide (s = "%") then inr (errorString "invalid URL escape")
       else inl {| Scheme := "https"; Host := s; Path := ""; RawQuery := "" |};
     grpc_DialContext := λ _ target,
       if decide (target = "unreachable:8201") then Some (errorString "dial failed")
       else None;
     GenerateForwardedRequest := λ r,
       (Some {| fq_Method := Method r;
                fq_Path := default "" (Path <$> req_URL r);
                fq_HeaderEntries := Some ((λ v, {| Values := v |}) <$> Header r);
                fq_Body := Body r |}, None, []);
     RequestForwardingClient_ForwardRequest := λ _ _, inl resp0 |}.

Definition cert0 : x509Certificate :=
  {| RawIssuer := [Byte.x30; Byte.x0a];
     SubjectCommonName := "fw-node";
     Raw := [Byte.x30; Byte.x82] |}.

Definition key0 : ecdsaPrivateKey := {| keyD := 7 |}.

Definition listener0 : Listener := {| clients := ∅; handlers := ∅ |}.

(** A standby node with an identity and a listener, not connected. *)
Definition core0 : Core :=
  {| ha := true; clusterHandler := true; clusterHeartbeatInterval := 5;
     localClusterCert := Stored [Byte.x30; Byte.x82];
     localClusterParsedCert := Stored (Some cert0);
     localClusterPrivateKey := Stored (Some key0);
     clusterListener := Some listener0;
     clusterLeaderParams := Stored None;
     rpcClientConnCancelFunc := None;
     rpcClientConn := None;
     rpcClientConnContext := None;
     rpcForwardingClient := None;
     nextHandle := 0 |}.

(** The same node before its first key generation. *)
Definition core_no_identity : Core :=
  {| ha := true; clusterHandler := true; clusterHeartbeatInterval := 5;
     localClusterCert := Stored [];
     localClusterParsedCert := Stored None;
     localClusterPrivateKey := Stored None;
     clusterListener := Some listener0;
     clusterLeaderParams := Stored None;
     rpcClientConnCancelFunc := None;
     rpcClientConn := None;
     rpcClientConnContext := None;
     rpcForwardingClient := None;
     nextHandle := 0 |}.

(** The node with an identity but no cluster listener. *)
Definition core_no_listener : Core := set_clusterListener None core0.

(** The node after a successful refresh to the active node. *)
Definition core_connected : Core :=
  (refreshRequestForwardingConnection env0 0 "active:8201" core0).1.2.

Definition url0 : URL :=
  {| Scheme := "https"; Host := "standby:8200"; Path := "/v1/sys/rewritten";
     RawQuery := "" |}.

Definition req0 : Request :=
  {| Method := "POST";
     req_URL := Some url0;
     Header := {[ "X-Test" := ["1"; "2"] ]};
     Body := [Byte.x70];
     req_ctx := {[ "original_request_path" := any_string "/v1/secret/foo" ]} |}.

(** The same request without the context value. *)
Definition req_no_path : Request :=
  {| Method := "POST";
     req_URL := Some url0;
     Header := {[ "X-Test" := ["1"; "2"] ]};
     Body := [Byte.x70];
     req_ctx := ∅ |}.

(** What the serializer of [env0] makes of [req0] with the context path. *)
Definition freq0 : ForwardedRequest :=
  {| fq_Method := "POST";
     fq_Path := "/v1/secret/foo";
     fq_HeaderEntries := Some {[ "X-Test" := {| Values := ["1"; "2"] |} ]};
     fq_Body := [Byte.x70] |}.

Definition handler0 : requestForwardingHandler :=
  (NewRequestForwardingHandler core0).1.

Definition client0 : forwardingClient :=
  {| fc_conn := Some 1%nat; echoTicker := 5; echoContext := 0%nat |}.

(** The history of the node [core_connected]. *)
Definition history0 : list Event :=
  (refreshRequestForwardingConnection env0 0 "active:8201" core0).2.

(** ** Further readings of cores and traces *)

(** None of the four connection fields is set. *)
Definition disconnected (c : Core) : Prop :=
  rpcClientConnCancelFunc c = None ∧
  rpcClientConn c = None ∧
  rpcClientConnContext c = None ∧
  rpcForwardingClient c = None.

(** All four connection fields are set and fit together: the cancel
    function and the stored context are those of [dctx], the client's stub
    runs over the stored connection [conn], its heartbeat under [dctx] at
    the core's heartbeat interval, and the listener has the client
    registered under the forwarding tag. *)
Definition connected (E : Env) (c : Core) (dctx conn : nat) : Prop :=
  rpcClientConnCancelFunc c = Some dctx ∧
  rpcClientConn c = Some conn ∧
  rpcClientConnContext c = Some dctx ∧
  rpcForwardingClient c =
    Some {| fc_conn := Some conn;
            echoTicker := clusterHeartbeatInterval c;
            echoContext := dctx |} ∧
  ∃ l, clusterListener c = Some l ∧
       clients l !! ALPN E = Some requestForwardingClusterClient.

(** The fields no forwarding method writes. *)
Definition same_configuration (c c' : Core) : Prop :=
  ha c' = ha c ∧
  clusterHandler c' = clusterHandler c ∧
  clusterHeartbeatInterval c' = clusterHeartbeatInterval c ∧
  localClusterCert c' = localClusterCert c ∧
  localClusterParsedCert c' = localClusterParsedCert c ∧
  localClusterPrivateKey c' = localClusterPrivateKey c.

(** What [ForwardRequest] returns when it returns an error. *)
Definition forward_errors : list error :=
  [ErrCannotForward;
   errorString "error creating forwarding RPC request";
   errorString "got nil forwarding RPC request";
   errorString "error during forwarding RPC request"].

Fixpoint count_events (P : Event → bool) (t : list Event) : nat :=
  match t with
  | [] => 0
  | e :: t' => (if P e then 1 else 0) + count_events P t'
  end.

Definition is_lock (e : Event) : bool :=
  match e with EvLock => true | _ => false end.
Definition is_unlock (e : Event) : bool :=
  match e with EvUnlock => true | _ => false end.
Definition is_rlock (e : Event) : bool :=
  match e with EvRLock => true | _ => false end.
Definition is_runlock (e : Event) : bool :=
  match e with EvRUnlock => true | _ => false end.
Definition is_log (e : Event) : bool :=
  match e with EvLog _ _ => true | _ => false end.
Definition is_measure_since (e : Event) : bool :=
  match e with EvMeasureSince _ => true | _ => false end.
Definition is_incr_counter (e : Event) : bool :=
  match e with EvIncrCounter _ => true | _ => false end.
Definition is_cancel (e : Event) : bool :=
  match e with EvCancel _ => true | _ => false end.
Definition is_conn_close (e : Event) : bool :=
  match e with EvConnClose _ => true | _ => false end.
Definition is_heartbeat (e : Event) : bool :=
  match e with EvStartHeartbeat _ => true | _ => false end.

(** The dial contexts not yet cancelled: [context.WithCancel] makes one,
    its cancel function ends it. *)
Definition step_ctx (l : list nat) (e : Event) : list nat :=
  match e with
  | EvWithCancel _ child => child :: l
  | EvCancel ctx => filter (λ x, x ≠ ctx) l
  | _ => l
  end.

Definition live_ctxs (t : list Event) : list nat := foldl step_ctx [] t.

(** The heartbeats still running: one is started under a context and runs
    until that context is cancelled. *)
Definition step_heartbeat (l : list nat) (e : Event) : list nat :=
  match e with
  | EvStartHeartbeat ctx => ctx :: l
  | EvCancel ctx => filter (λ x, x ≠ ctx) l
  | _ => l
  end.

Definition live_heartbeats (t : list Event) : list nat := foldl step_heartbeat [] t.

(** The history accounts for the core: the open connections, the live
    contexts and the running heartbeats are those the core holds, and the
    client's heartbeat runs under the context the cancel function ends. *)
Definition accounted (h : list Event) (c : Core) : Prop :=
  live_conns h = option_list (rpcClientConn c) ∧
  live_ctxs h = option_list (rpcClientConnCancelFunc c) ∧
  live_heartbeats h = option_list (echoContext <$> rpcForwardingClient c) ∧
  ∀ client, rpcForwardingClient c = Some client →
            rpcClientConnCancelFunc c = Some (echoContext client).

(** The core as [startForwarding] leaves it: cleared, with a new handler
    under the forwarding tag when the node is an HA node with a listener. *)
Definition started_core (E : Env) (c : Core) : Core :=
  match clusterListener c with
  | Some l =>
      if ha c then
        set_clusterListener
          (Some (AddHandler (ALPN E) (NewRequestForwardingHandler c).1
                   (RemoveClient (ALPN E) l)))
          (cleared_core E c)
      else cleared_core E c
  | None => cleared_core E c
  end.

(** The calls of the forwarding life cycle a node goes through. *)
Inductive op :=
| OpRefresh (ctx : nat) (clusterAddr : string)
| OpStartForwarding (ctx : nat)
| OpForwardRequest (req : Request).

Definition run_op (E : Env) (o : op) (c : Core) : Core * list Event :=
  match o with
  | OpRefresh ctx clusterAddr =>
      let '(_, c', t) := refreshRequestForwardingConnection E ctx clusterAddr c in (c', t)
  | OpStartForwarding ctx =>
      let '(_, c', t) := startForwarding E ctx c in (c', t)
  | OpForwardRequest req =>
      (c, (ForwardRequest E c req).2)
  end.

Fixpoint run_ops (E : Env) (ops : list op) (c : Core) : Core * list Event :=
  match ops with
  | [] => (c, [])
  | o :: rest =>
      let '(c1, t1) := run_op E o c in
      let '(c2, t2) := run_ops E rest c1 in
      (c2, t1 ++ t2)
  end.

(** The wire requests of a trace whose RPC failed. *)
Definition failed_sends (E : Env) (t : list Event) : nat :=
  length (List.filter
            (λ '(cl, fq),
               match RequestForwardingClient_ForwardRequest E cl fq with
               | inr _ => true
               | inl _ => false
               end)
            (sent t)).

(** The events that open or close a connection, make or cancel a context,
    or start a heartbeat. *)
Definition connection_event (e : Event) : bool :=
  match e with
  | EvDialOk _ _ _ | EvConnClose _ | EvWithCancel _ _ | EvCancel _
  | EvStartHeartbeat _ => true
  | _ => false
  end.

(** A core whose identity cells have never been stored. *)
Definition core_never_stored : Core :=
  {| ha := true; clusterHandler := true; clusterHeartbeatInterval := 5;
     localClusterCert := Unset;
     localClusterParsedCert := Unset;
     localClusterPrivateKey := Unset;
     clusterListener := Some listener0;
     clusterLeaderParams := Unset;
     rpcClientConnCancelFunc := None;
     rpcClientConn := None;
     rpcClientConnContext := None;
     rpcForwardingClient := None;
     nextHandle := 0 |}.

(** ** Proof automation *)

Ltac run :=
  cbv [mbind M_bind bind mret M_ret ret emit panic get modify defer Load deref].

Ltac run_request :=
  cbv [mbind M_bind bind mret M_ret ret emit panic get modify defer Load deref
       set_URL_Path ctx_Value_string Request_with_URL Request_with_Body
       URL_with_Path
       req_URL req_ctx Method Header Body Path Scheme Host RawQuery app].

Ltac run_core :=
  cbv [mbind M_bind bind mret M_ret ret emit panic get modify defer Load deref
       clearForwardingClients WithCancel DialContext NewTicker
       set_clusterListener set_clusterLeaderParams set_rpcClientConnCancelFunc
       set_rpcClientConn set_rpcClientConnContext set_rpcForwardingClient
       set_nextHandle cleared_core clear_trace dialled_core
       ha clusterHandler clusterHeartbeatInterval localClusterCert
       localClusterParsedCert localClusterPrivateKey clusterListener
       clusterLeaderParams rpcClientConnCancelFunc rpcClientConn
       rpcClientConnContext rpcForwardingClient nextHandle
       fmap option_fmap option_map app].

Ltac core_fields :=
  cbn [cleared_core dialled_core localClusterParsedCert clusterListener nextHandle
       rpcClientConn rpcClientConnCancelFunc rpcClientConnContext
       rpcForwardingClient clusterHeartbeatInterval fmap option_fmap option_map] in *.

(** Case analysis of a run of the refresh, against what is known of the
    address, the certificate, the listener and the dial. *)
Ltac connects_cases Hc :=
  inversion Hc; subst; core_fields;
  repeat match goal with
         | H1 : ?x = _, H2 : ?x = _ |- _ => rewrite H1 in H2; simplify_eq
         end;
  try congruence.

(** ** The TLS lookups *)

Lemma ClientLookup_range_miss localCert issuer subjs c :
  issuer ∉ subjs →
  ClientLookup_range localCert issuer subjs c = (Returned None, c, []).
Proof.
  induction subjs as [|subj rest IH]; intros Hnot; simpl.
  - reflexivity.
  - destruct (decide (subj = issuer)) as [->|Hne].
    + exfalso. apply Hnot. left.
    + apply IH. intros Hin. apply Hnot. by right.
Qed.

Lemma ClientLookup_range_hit localCert issuer subjs c k p :
  localClusterPrivateKey c = Stored k →
  localClusterParsedCert c = Stored p →
  issuer ∈ subjs →
  ClientLookup_range localCert issuer subjs c =
    (Returned (Some (Some {| Certificate := [localCert]; PrivateKey := k; Leaf := p |},
                     None)), c, []).
Proof.
  intros Hk Hp.
  induction subjs as [|subj rest IH]; intros Hin; simpl.
  - by apply not_elem_of_nil in Hin.
  - destruct (decide (subj = issuer)) as [->|Hne].
    + cbv [mbind M_bind bind get Load mret M_ret ret]. rewrite Hk, Hp. reflexivity.
    + apply IH. apply elem_of_cons in Hin as [->|Hin]; [done | exact Hin].
Qed.

(** C6: with a present local identity, [ClientLookup] returns no
    certificate and no error when no acceptable-CA subject equals the local
    certificate's raw issuer, and returns the local certificate (stored
    bytes, private key, parsed leaf) when some subject equals it. *)
Theorem ClientLookup_issuer_match (c : Core) (b : bytes) (p : x509Certificate)
    (k : option ecdsaPrivateKey) (requestInfo : CertificateRequestInfo) :
  identity_stored c b (Some p) k →
  length b ≠ 0%nat →
  (RawIssuer p ∉ AcceptableCAs requestInfo →
     ClientLookup requestInfo c = (Returned (None, None), c, [])) ∧
  (RawIssuer p ∈ AcceptableCAs requestInfo →
     ClientLookup requestInfo c =
       (Returned (Some {| Certificate := [b]; PrivateKey := k; Leaf := Some p |},
                  None), c, [])).
Proof.
  intros (Hb & Hp & Hk) Hlen.
  split; intros Hin; unfold ClientLookup; run; rewrite Hp, Hb;
    destruct (decide (length b = 0%nat)) as [Hz|_]; try contradiction.
  - by rewrite ClientLookup_range_miss.
  - by rewrite (ClientLookup_range_hit _ _ _ _ k (Some p)).
Qed.

Lemma ClientLookup_issuer_match_witness :
  ClientLookup {| AcceptableCAs := [[Byte.x31]; [Byte.x30; Byte.x0a]] |} core0 =
    (Returned (Some {| Certificate := [[Byte.x30; Byte.x82]];
                       PrivateKey := Some key0;
                       Leaf := Some cert0 |}, None), core0, []).
Proof.
  apply (ClientLookup_issuer_match core0 [Byte.x30; Byte.x82] cert0 (Some key0)).
  - repeat split.
  - simpl. lia.
  - simpl. set_solver.
Defined.

(** C4, as stated, fails: before the first key generation [ServerLookup]
    does not decline silently, it returns an error value. *)
Lemma ServerLookup_absent_identity_returns_error :
  identity_stored core_no_identity [] None None ∧
  ServerLookup {| HelloServerName := "fw-node" |} core_no_identity ≠
    (Returned (None, None), core_no_identity, []) ∧
  ServerLookup {| HelloServerName := "fw-node" |} core_no_identity =
    (Returned (None, Some (errorString "got forwarding connection but no local cert")),
     core_no_identity, []).
Proof.
  split; [repeat split|]. split; [|reflexivity].
  intros H. vm_compute in H. discriminate H.
Qed.

(** C4, amended: when the stored identity is absent (empty certificate
    bytes or a nil parsed certificate), [ClientLookup] declines with no
    certificate and no error.  [ServerLookup] looks at the certificate
    bytes only: when they are empty it returns no certificate together
    with the error "got forwarding connection but no local cert"; when
    they are present and only the parsed certificate is nil it returns a
    certificate over those bytes with a nil leaf. *)
Theorem lookups_absent_identity (c : Core) (b : bytes)
    (p : option x509Certificate) (k : option ecdsaPrivateKey)
    (requestInfo : CertificateRequestInfo) (clientHello : ClientHelloInfo) :
  identity_stored c b p k →
  length b = 0%nat ∨ p = None →
  ClientLookup requestInfo c = (Returned (None, None), c, []) ∧
  (length b = 0%nat →
     ServerLookup clientHello c =
       (Returned (None, Some (errorString "got forwarding connection but no local cert")),
        c, [])) ∧
  (length b ≠ 0%nat →
     ServerLookup clientHello c =
       (Returned (Some {| Certificate := [b]; PrivateKey := k; Leaf := None |}, None),
        c, [])).
Proof.
  intros (Hb & Hp & Hk) Habsent.
  split; [|split].
  - unfold ClientLookup; run. rewrite Hp.
    destruct p as [parsed|]; [|reflexivity].
    rewrite Hb. destruct Habsent as [Hz|Hnone]; [|discriminate Hnone].
    destruct (decide (length b = 0%nat)); [reflexivity | contradiction].
  - intros Hz. unfold ServerLookup; run. rewrite Hb.
    destruct (decide (length b = 0%nat)); [reflexivity | contradiction].
  - intros Hnz. unfold ServerLookup; run. rewrite Hb.
    destruct (decide (length b = 0%nat)); [contradiction|].
    destruct Habsent as [Hz| ->]; [contradiction|].
    rewrite Hk, Hp. reflexivity.
Qed.

Lemma lookups_absent_identity_witness :
  identity_stored core_no_identity [] None None ∧
  ClientLookup {| AcceptableCAs := [[Byte.x30; Byte.x0a]] |} core_no_identity =
    (Returned (None, None), core_no_identity, []).
Proof.
  split; [repeat split|].
  apply (lookups_absent_identity core_no_identity [] None None
           {| AcceptableCAs := [[Byte.x30; Byte.x0a]] |}
           {| HelloServerName := "fw-node" |}).
  - repeat split.
  - left. reflexivity.
Defined.

(** ** The forwarding server *)

(** C3, as stated, fails: in the trace of [Stop] the stop channel is not
    signalled before the sleep; the sleep comes first. *)
Lemma Stop_does_not_signal_before_sleep :
  occurs_before is_close_stopCh is_sleep (Stop env0 handler0).2 = false ∧
  (Stop env0 handler0).2 ≠
    [EvCloseStopCh; EvSleep (ListenerAcceptDeadline env0); EvRPCServerStop].
Proof.
  split; [reflexivity|].
  intros H. vm_compute in H. discriminate H.
Qed.

(** C3, amended: [Stop] on a handler whose stop channel is open first sleeps
    for the listener's accept deadline, then closes the stop channel, then
    stops the RPC server, and returns nil: sleep, signal, hard stop. *)
Theorem Stop_sleeps_then_signals_then_stops E (rf : requestForwardingHandler) :
  stopCh_closed rf = false →
  Stop E rf =
    (Returned None,
     {| rf_ha := rf_ha rf;
        fwRPCServer_registered := fwRPCServer_registered rf;
        fwRPCServer_stopped := true;
        stopCh_closed := true |},
     [EvSleep (ListenerAcceptDeadline E); EvCloseStopCh; EvRPCServerStop]) ∧
  occurs_before is_sleep is_close_stopCh (Stop E rf).2 = true ∧
  occurs_before is_close_stopCh is_server_stop (Stop E rf).2 = true ∧
  occurs_before is_close_stopCh is_sleep (Stop E rf).2 = false.
Proof.
  intros Hopen.
  assert (Stop E rf =
    (Returned None,
     {| rf_ha := rf_ha rf;
        fwRPCServer_registered := fwRPCServer_registered rf;
        fwRPCServer_stopped := true;
        stopCh_closed := true |},
     [EvSleep (ListenerAcceptDeadline E); EvCloseStopCh; EvRPCServerStop])) as Heq.
  { unfold Stop, close_stopCh, fwRPCServer_Stop; run. rewrite Hopen. reflexivity. }
  rewrite Heq. repeat split.
Qed.

Lemma Stop_sleeps_then_signals_then_stops_witness :
  stopCh_closed handler0 = false ∧
  (Stop env0 handler0).2 = [EvSleep 500; EvCloseStopCh; EvRPCServerStop].
Proof.
  split; [reflexivity|].
  pose proof (Stop_sleeps_then_signals_then_stops env0 handler0 eq_refl) as [H _].
  rewrite H. reflexivity.
Defined.

(** ** Forwarding a request *)

(** C5: without a forwarding client, [ForwardRequest] returns status 0, nil
    headers, nil body and [ErrCannotForward]; it only takes and releases the
    read lock (no metric, no serialization, no RPC) and leaves the request
    as it was. *)
Theorem ForwardRequest_cannot_forward E (c : Core) (req : Request) :
  rpcForwardingClient c = None →
  ForwardRequest E c req =
    (Returned (0%Z, None, None, Some ErrCannotForward), req, [EvRLock; EvRUnlock]).
Proof.
  intros Hnil. unfold ForwardRequest; run. rewrite Hnil. reflexivity.
Qed.

Lemma ForwardRequest_cannot_forward_witness :
  rpcForwardingClient core0 = None ∧
  ForwardRequest env0 core0 req0 =
    (Returned (0%Z, None, None, Some ErrCannotForward), req0, [EvRLock; EvRUnlock]).
Proof.
  split; [reflexivity|].
  apply (ForwardRequest_cannot_forward env0 core0 req0). reflexivity.
Defined.

(** The filled header has, under every name, the values of the wire entry
    of that name. *)
Lemma header_of_entries_lookup (entries : gmap string HeaderEntry) (k : string) :
  header_of_entries entries !! k = Values <$> entries !! k.
Proof.
  unfold header_of_entries.
  apply (map_fold_weak_ind
           (λ (header : gmap string (list string)) (m : gmap string HeaderEntry),
              header !! k = Values <$> m !! k)).
  - by rewrite !lookup_empty.
  - intros i x m r _ IH.
    destruct (decide (i = k)) as [->|Hne].
    + by rewrite !lookup_insert_eq.
    + by rewrite !lookup_insert_ne.
Qed.

(** A run of [ForwardRequest] with a client, a URL and the context path. *)
Lemma ForwardRequest_connected E c client req u p :
  rpcForwardingClient c = Some client →
  req_URL req = Some u →
  req_ctx req !! "original_request_path" = Some (any_string p) →
  ForwardRequest E c req =
    match (GenerateForwardedRequest E (rewritten req u p)).1 with
    | (_, Some _) =>
        (Returned (0%Z, None, None,
                   Some (errorString "error creating forwarding RPC request")),
         handed_back E req u p,
         [EvRLock; EvTimeNow; EvGenerateForwardedRequest (rewritten req u p);
          EvLog Error "error creating forwarding RPC request";
          EvMeasureSince measure_key; EvRUnlock])
    | (None, None) =>
        (Returned (0%Z, None, None,
                   Some (errorString "got nil forwarding RPC request")),
         handed_back E req u p,
         [EvRLock; EvTimeNow; EvGenerateForwardedRequest (rewritten req u p);
          EvLog Error "got nil forwarding RPC request";
          EvMeasureSince measure_key; EvRUnlock])
    | (Some freq, None) =>
        match RequestForwardingClient_ForwardRequest E client freq with
        | inr _ =>
            (Returned (0%Z, None, None,
                       Some (errorString "error during forwarding RPC request")),
             handed_back E req u p,
             [EvRLock; EvTimeNow; EvGenerateForwardedRequest (rewritten req u p);
              EvRPCForwardRequest client freq;
              EvIncrCounter ["ha"; "rpc"; "client"; "forward"; "errors"];
              EvLog Error "error during forwarded RPC request";
              EvMeasureSince measure_key; EvRUnlock])
        | inl resp =>
            (Returned (StatusCode resp,
                       header_of_entries <$> HeaderEntries resp,
                       resp_Body resp, None),
             handed_back E req u p,
             [EvRLock; EvTimeNow; EvGenerateForwardedRequest (rewritten req u p);
              EvRPCForwardRequest client freq;
              EvMeasureSince measure_key; EvRUnlock])
        end
    end.
Proof.
  intros Hcl Hu Hp.
  destruct req as [m ru hd bd cx], u as [us uh up uq]. simpl in Hu, Hp. subst ru.
  unfold ForwardRequest, handed_back, rewritten. rewrite Hcl.
  run_request. rewrite Hp. run_request.
  destruct (GenerateForwardedRequest E _) as [[[freq|] [err|]] unread];
    cbn [fst snd]; try reflexivity.
  destruct (RequestForwardingClient_ForwardRequest E client freq) as [resp|err];
    [|reflexivity].
  destruct (HeaderEntries resp); reflexivity.
Qed.

(** A run with a client whose request context lacks the string: the
    assertion panics, the deferred calls still run. *)
Lemma ForwardRequest_no_path E c client req :
  rpcForwardingClient c = Some client →
  (∀ s, req_ctx req !! "original_request_path" ≠ Some (any_string s)) →
  ∃ msg, ForwardRequest E c req =
    (Panicked msg, req, [EvRLock; EvTimeNow; EvMeasureSince measure_key; EvRUnlock]).
Proof.
  intros Hcl Hno.
  destruct req as [m ru hd bd cx]. simpl in Hno.
  unfold ForwardRequest. rewrite Hcl.
  destruct ru as [[us uh up uq]|]; run_request.
  - destruct (cx !! "original_request_path") as [[s|n|b]|] eqn:Hlk; run_request.
    + by destruct (Hno s).
    + eexists; reflexivity.
    + eexists; reflexivity.
    + eexists; reflexivity.
  - eexists; reflexivity.
Qed.

(** C10: with a forwarding client established, a request whose context
    carries no string under "original_request_path" makes [ForwardRequest]
    panic instead of returning an error; nothing is serialized or sent. *)
Theorem ForwardRequest_panics_without_original_path E (c : Core)
    (client : forwardingClient) (req : Request) :
  rpcForwardingClient c = Some client →
  (∀ s, req_ctx req !! "original_request_path" ≠ Some (any_string s)) →
  ∃ msg, ForwardRequest E c req =
    (Panicked msg, req, [EvRLock; EvTimeNow; EvMeasureSince measure_key; EvRUnlock]).
Proof. apply ForwardRequest_no_path. Qed.

Lemma ForwardRequest_panics_without_original_path_witness :
  rpcForwardingClient core_connected = Some client0 ∧
  ∃ msg, ForwardRequest env0 core_connected req_no_path =
    (Panicked msg, req_no_path,
     [EvRLock; EvTimeNow; EvMeasureSince measure_key; EvRUnlock]).
Proof.
  split; [reflexivity|].
  apply (ForwardRequest_panics_without_original_path env0 core_connected client0
           req_no_path).
  - reflexivity.
  - intros s H. vm_compute in H. discriminate H.
Defined.





(** C9: when the RPC succeeds, [ForwardRequest] returns the wire response's
    status code and body as they are and no error; the returned header is
    nil when the wire response has no header entries, and otherwise maps
    every name to the whole ordered value list of the entry of that name
    (and has no other names). *)
Theorem ForwardRequest_response_verbatim E (c : Core) (client : forwardingClient)
    (req : Request) (u : URL) (p : string) (freq : ForwardedRequest)
    (resp : Response) :
  rpcForwardingClient c = Some client →
  req_URL req = Some u →
  req_ctx req !! "original_request_path" = Some (any_string p) →
  (GenerateForwardedRequest E (rewritten req u p)).1 = (Some freq, None) →
  RequestForwardingClient_ForwardRequest E client freq = inl resp →
  ∃ header,
    (ForwardRequest E c req).1.1 =
      Returned (StatusCode resp, header, resp_Body resp, None) ∧
    (HeaderEntries resp = None → header = None) ∧
    (∀ entries, HeaderEntries resp = Some entries →
       ∃ h, header = Some h ∧ ∀ k, h !! k = Values <$> entries !! k).
Proof.
  intros Hcl Hu Hp Hgen Hrpc.
  rewrite (ForwardRequest_connected E c client req u p Hcl Hu Hp), Hgen, Hrpc.
  exists (header_of_entries <$> HeaderEntries resp).
  split; [reflexivity|]. split.
  - intros ->. reflexivity.
  - intros entries ->. exists (header_of_entries entries).
    split; [reflexivity|]. apply header_of_entries_lookup.
Qed.

Lemma ForwardRequest_response_verbatim_witness :
  ∃ header,
    (ForwardRequest env0 core_connected req0).1.1 =
      Returned (200%Z, header, Some [Byte.x64; Byte.x6f; Byte.x6e; Byte.x65], None) ∧
    (HeaderEntries resp0 = None → header = None) ∧
    (∀ entries, HeaderEntries resp0 = Some entries →
       ∃ h, header = Some h ∧ ∀ k, h !! k = Values <$> entries !! k).
Proof.
  apply (ForwardRequest_response_verbatim env0 core_connected client0 req0 url0
           "/v1/secret/foo" freq0 resp0); reflexivity.
Defined.

(** ** Clearing and refreshing the connection *)

Lemma clearForwardingClients_run E (c : Core) :
  clearForwardingClients E c = (Returned tt, cleared_core E c, clear_trace E c).
Proof.
  destruct c as [h ch hb lc lp lk l lead cancel conn dctx client next].
  destruct cancel, conn, l; reflexivity.
Qed.

Lemma refresh_run E (ctx : nat) (clusterAddr : string) (c : Core) :
  ∃ r c' post,
    refreshRequestForwardingConnection E ctx clusterAddr c =
      (r, c',
       [EvLog Debug "refreshing forwarding connection"; EvLock] ++
       clear_trace E c ++ post ++
       [EvUnlock; EvLog Debug "done refreshing forwarding connection"]) ∧
    connects E ctx clusterAddr (cleared_core E c) r c' post.
Proof.
  destruct c as [h ch hb lc lp lk l lead cancel conn dctx client next].
  unfold refreshRequestForwardingConnection.
  destruct (decide (clusterAddr = "")) as [Hempty|Hne].
  { eexists _, _, []. split; [|by apply connects_nothing].
    destruct cancel, conn, l; reflexivity. }
  destruct (url_Parse E clusterAddr) as [clusterURL|err] eqn:Hparse.
  2: { eexists _, _, _. split; [|by eapply connects_parse_error].
       destruct cancel, conn, l; reflexivity. }
  destruct lp as [|[parsedCert|]].
  { eexists _, _, _. split; [|by eapply connects_cert_unset].
    destruct cancel, conn, l; reflexivity. }
  2: { eexists _, _, _. split; [|by eapply connects_no_cert].
       destruct cancel, conn, l; reflexivity. }
  destruct l as [l|].
  2: { eexists _, _, _. split; [|by eapply connects_no_listener].
       destruct cancel, conn; reflexivity. }
  destruct (grpc_DialContext E next (Host clusterURL)) as [err|] eqn:Hdial.
  - eexists _, _, _. split; [|by eapply connects_dial_error].
    destruct cancel, conn; run_core; rewrite Hdial; reflexivity.
  - destruct (decide (0 < hb)%Z) as [Hpos|Hnpos].
    + eexists _, _, _. split; [|by eapply connects_dial_ok].
      destruct cancel, conn; run_core; rewrite Hdial;
        (destruct (decide (0 < hb)%Z); [reflexivity | contradiction]).
    + eexists _, _, _. split; [|by eapply connects_ticker_panic].
      destruct cancel, conn; run_core; rewrite Hdial;
        (destruct (decide (0 < hb)%Z); [contradiction | reflexivity]).
Qed.

(** C2, as stated, fails: with an identity and a parseable address but no
    cluster listener, the refresh returns nil, not an error. *)
Lemma refresh_without_listener_returns_nil :
  url_Parse env0 "active:8201" =
    inl {| Scheme := "https"; Host := "active:8201"; Path := ""; RawQuery := "" |} ∧
  localClusterParsedCert core_no_listener = Stored (Some cert0) ∧
  clusterListener core_no_listener = None ∧
  (refreshRequestForwardingConnection env0 0 "active:8201" core_no_listener).1.1 =
    Returned None ∧
  ¬ ∃ err,
      (refreshRequestForwardingConnection env0 0 "active:8201" core_no_listener).1.1 =
        Returned (Some err).
Proof.
  repeat split. intros [err Herr]. vm_compute in Herr. discriminate Herr.
Qed.

(** C2, amended: for a non-empty, parseable cluster address, a refresh on a
    node whose parsed cluster certificate is nil returns the error "no
    request forwarding cluster certificate found"; on a node that has the
    certificate but no cluster listener it logs "no cluster listener
    configured" at error level and returns nil.  Either way the node is
    left cleared and nothing is registered or dialled. *)
Theorem refresh_missing_precondition E (ctx : nat) (clusterAddr : string)
    (c : Core) (clusterURL : URL) :
  clusterAddr ≠ "" →
  url_Parse E clusterAddr = inl clusterURL →
  (localClusterParsedCert c = Stored None →
     refreshRequestForwardingConnection E ctx clusterAddr c =
       (Returned (Some (errorString "no request forwarding cluster certificate found")),
        cleared_core E c,
        [EvLog Debug "refreshing forwarding connection"; EvLock] ++
        clear_trace E c ++
        [EvLog Error "no request forwarding cluster certificate found"] ++
        [EvUnlock; EvLog Debug "done refreshing forwarding connection"])) ∧
  (∀ parsedCert,
     localClusterParsedCert c = Stored (Some parsedCert) →
     clusterListener c = None →
     refreshRequestForwardingConnection E ctx clusterAddr c =
       (Returned None,
        cleared_core E c,
        [EvLog Debug "refreshing forwarding connection"; EvLock] ++
        clear_trace E c ++
        [EvLog Error "no cluster listener configured"] ++
        [EvUnlock; EvLog Debug "done refreshing forwarding connection"])).
Proof.
  intros Hne Hparse.
  destruct (refresh_run E ctx clusterAddr c) as (r & c' & post & Heq & Hc).
  rewrite Heq. clear Heq.
  destruct c as [h ch hb lc lp lk l lead cancel conn dctx client next].
  split.
  - intros Hcert. cbn in Hcert. subst lp. connects_cases Hc.
  - intros parsedCert Hcert Hl. cbn in Hcert, Hl. subst lp l. connects_cases Hc.
Qed.

Lemma refresh_missing_precondition_witness :
  "active:8201" ≠ "" ∧
  (refreshRequestForwardingConnection env0 0 "active:8201" core_no_identity).1.1 =
    Returned (Some (errorString "no request forwarding cluster certificate found")).
Proof.
  split; [discriminate|].
  pose proof (refresh_missing_precondition env0 0 "active:8201" core_no_identity
                {| Scheme := "https"; Host := "active:8201"; Path := ""; RawQuery := "" |})
    as H.
  destruct H as [H _]; [discriminate | reflexivity |].
  rewrite H; reflexivity.
Defined.

(** C7, as stated, fails: after a failed dial the client-identity
    registration made before the dial is still on the listener, so the
    node is not cleared. *)
Lemma refresh_dial_failure_keeps_registration :
  (refreshRequestForwardingConnection env0 0 "unreachable:8201" core0).1.1 =
    Returned (Some (errorString "dial failed")) ∧
  (∃ l, clusterListener
          (refreshRequestForwardingConnection env0 0 "unreachable:8201" core0).1.2 =
          Some l ∧
        clients l !! ALPN env0 = Some requestForwardingClusterClient) ∧
  ¬ cleared env0
      (refreshRequestForwardingConnection env0 0 "unreachable:8201" core0).1.2.
Proof.
  split; [reflexivity|]. split.
  - eexists. split; reflexivity.
  - intros (_ & _ & _ & _ & Hreg).
    specialize (Hreg _ eq_refl). vm_compute in Hreg. discriminate Hreg.
Qed.

(** C7, amended: when the dial fails, the refresh returns the dial's error,
    cancels the dial context, and leaves the node with no RPC connection,
    no cancel function, no connection context and no forwarding client;
    the client-identity registration it added before dialling is not
    removed by this call and stays on the listener. *)
Theorem refresh_dial_failure E (ctx : nat) (clusterAddr : string) (c : Core)
    (clusterURL : URL) (parsedCert : x509Certificate) (l : Listener) (err : error) :
  clusterAddr ≠ "" →
  url_Parse E clusterAddr = inl clusterURL →
  localClusterParsedCert c = Stored (Some parsedCert) →
  clusterListener c = Some l →
  grpc_DialContext E (nextHandle c) (Host clusterURL) = Some err →
  ∃ c' t,
    refreshRequestForwardingConnection E ctx clusterAddr c = (Returned (Some err), c', t) ∧
    rpcClientConn c' = None ∧
    rpcClientConnCancelFunc c' = None ∧
    rpcClientConnContext c' = None ∧
    rpcForwardingClient c' = None ∧
    (∃ l', clusterListener c' = Some l' ∧
           clients l' !! ALPN E = Some requestForwardingClusterClient) ∧
    t = [EvLog Debug "refreshing forwarding connection"; EvLock] ++
        clear_trace E c ++
        [EvAddClient (ALPN E); EvWithCancel ctx (nextHandle c);
         EvDialErr (nextHandle c) (Host clusterURL) err;
         EvCancel (nextHandle c);
         EvLog Error "err setting up forwarding rpc client"] ++
        [EvUnlock; EvLog Debug "done refreshing forwarding connection"].
Proof.
  intros Hne Hparse Hcert Hl Hdial.
  destruct (refresh_run E ctx clusterAddr c) as (r & c' & post & Heq & Hc).
  rewrite Heq. clear Heq.
  destruct c as [h ch hb lc lp lk l0 lead cancel conn dctx client next].
  cbn in Hcert, Hl, Hdial. subst lp l0. connects_cases Hc.
  eexists _, _. split; [reflexivity|].
  repeat split; try reflexivity.
  eexists. split; [reflexivity|]. apply lookup_insert_eq.
Qed.

Lemma refresh_dial_failure_witness :
  ∃ c' t,
    refreshRequestForwardingConnection env0 0 "unreachable:8201" core0 =
      (Returned (Some (errorString "dial failed")), c', t) ∧
    rpcClientConn c' = None ∧
    rpcClientConnCancelFunc c' = None ∧
    rpcClientConnContext c' = None ∧
    rpcForwardingClient c' = None ∧
    (∃ l', clusterListener c' = Some l' ∧
           clients l' !! ALPN env0 = Some requestForwardingClusterClient) ∧
    t = [EvLog Debug "refreshing forwarding connection"; EvLock] ++
        clear_trace env0 core0 ++
        [EvAddClient (ALPN env0); EvWithCancel 0 (nextHandle core0);
         EvDialErr (nextHandle core0) "unreachable:8201" (errorString "dial failed");
         EvCancel (nextHandle core0);
         EvLog Error "err setting up forwarding rpc client"] ++
        [EvUnlock; EvLog Debug "done refreshing forwarding connection"].
Proof.
  apply (refresh_dial_failure env0 0 "unreachable:8201" core0
           {| Scheme := "https"; Host := "unreachable:8201"; Path := ""; RawQuery := "" |}
           cert0 listener0 (errorString "dial failed"));
    [discriminate | reflexivity..].
Defined.

(** ** At most one connection *)

Lemma live_from_app l t1 t2 :
  live_from l (t1 ++ t2) = live_from (live_from l t1) t2.
Proof. apply foldl_app. Qed.

Lemma bounded_from_app l t1 t2 :
  bounded_from l (t1 ++ t2) ↔
  bounded_from l t1 ∧ bounded_from (live_from l t1) t2.
Proof.
  revert l. induction t1 as [|e t1 IH]; intros l; simpl.
  - tauto.
  - rewrite IH. tauto.
Qed.

Lemma bounded_from_prefix l t p :
  (length l ≤ 1)%nat → bounded_from l t → p `prefix_of` t →
  (length (live_from l p) ≤ 1)%nat.
Proof.
  revert l p. induction t as [|e t IH]; intros l p Hl Hb Hp.
  - apply prefix_nil_inv in Hp as ->. exact Hl.
  - destruct p as [|e' p]; [exact Hl|].
    pose proof (prefix_cons_inv_1 _ _ _ _ Hp) as ->.
    apply prefix_cons_inv_2 in Hp. destruct Hb as [Hb1 Hb2].
    simpl. by apply IH.
Qed.

Lemma prefix_app_split {A} (p h t : list A) :
  p `prefix_of` h ++ t →
  p `prefix_of` h ∨ ∃ p', p = h ++ p' ∧ p' `prefix_of` t.
Proof.
  revert p. induction h as [|x h IH]; intros p Hp.
  - right. by exists p.
  - destruct p as [|y p]; [left; apply prefix_nil|].
    simpl in Hp. pose proof (prefix_cons_inv_1 _ _ _ _ Hp) as ->.
    apply prefix_cons_inv_2 in Hp.
    destruct (IH p Hp) as [Hl|(p' & -> & Hp')].
    + left. by apply prefix_cons.
    + right. by exists p'.
Qed.

Lemma AtMostOneLive_app h t :
  AtMostOneLive h → bounded_from (live_conns h) t → AtMostOneLive (h ++ t).
Proof.
  intros Hh Ht p Hp.
  apply prefix_app_split in Hp as [Hp|(p' & -> & Hp')].
  - by apply Hh.
  - unfold live_conns. rewrite live_from_app.
    apply (bounded_from_prefix _ t); [|done..].
    apply Hh. done.
Qed.

Lemma AtMostOneLive_nil : AtMostOneLive [].
Proof. intros p Hp. apply prefix_nil_inv in Hp as ->. simpl. lia. Qed.

Lemma filter_ne_singleton (x : nat) : filter (λ y, y ≠ x) [x] = [].
Proof.
  rewrite filter_cons. destruct (decide (x ≠ x)); [contradiction | reflexivity].
Qed.

(** The clear closes the connection the core holds: from a history the core
    tracks, no connection is open once the clear is through, and none was
    opened on the way. *)
Lemma clear_closes E (c : Core) (l : list nat) :
  l = option_list (rpcClientConn c) →
  live_from l ([EvLog Debug "refreshing forwarding connection"; EvLock] ++
               clear_trace E c) = [] ∧
  bounded_from l ([EvLog Debug "refreshing forwarding connection"; EvLock] ++
                  clear_trace E c).
Proof.
  intros ->. unfold clear_trace.
  destruct (rpcClientConnCancelFunc c), (rpcClientConn c) as [conn|],
           (clusterListener c); simpl;
    rewrite ?filter_ne_singleton; simpl; repeat split; lia.
Qed.

Lemma clear_establishes_nothing E (c : Core) :
  forallb (λ e, negb (establishes e))
    ([EvLog Debug "refreshing forwarding connection"; EvLock] ++ clear_trace E c) = true.
Proof.
  unfold clear_trace.
  destruct (rpcClientConnCancelFunc c), (rpcClientConn c), (clusterListener c);
    reflexivity.
Qed.

Lemma cleared_core_cleared E (c : Core) : cleared E (cleared_core E c).
Proof.
  repeat split. simpl. intros l Hl.
  destruct (clusterListener c) as [l0|]; [|discriminate Hl].
  injection Hl as <-. apply lookup_delete_eq.
Qed.

(** After the clear, whichever way the refresh goes on, at most the one
    connection it dials is open and the core holds it. *)
Lemma connects_single E ctx clusterAddr cc r c' post :
  rpcClientConn cc = None →
  connects E ctx clusterAddr cc r c' post →
  let t := post ++ [EvUnlock; EvLog Debug "done refreshing forwarding connection"] in
  bounded_from [] t ∧ live_from [] t = option_list (rpcClientConn c').
Proof.
  intros Hnone Hc.
  inversion Hc; subst; simpl; rewrite ?Hnone; simpl; repeat split; lia.
Qed.

(** One refresh keeps the history and the core in step. *)
Lemma refresh_preserves E ctx clusterAddr (c : Core) (h : list Event) :
  tracks h c → AtMostOneLive h →
  let '(r, c', t) := refreshRequestForwardingConnection E ctx clusterAddr c in
  tracks (h ++ t) c' ∧ AtMostOneLive (h ++ t).
Proof.
  intros Htr Hh.
  destruct (refresh_run E ctx clusterAddr c) as (r & c' & post & -> & Hc).
  destruct (clear_closes E c (live_conns h) Htr) as [Hlive Hb].
  destruct (connects_single E ctx clusterAddr (cleared_core E c) r c' post eq_refl Hc)
    as [Hb2 Hlive2].
  rewrite (assoc_L (++) [_; _] (clear_trace E c)).
  split.
  - unfold tracks, live_conns. rewrite live_from_app. fold (live_conns h).
    rewrite (live_from_app _ ([_; _] ++ clear_trace E c)), Hlive. exact Hlive2.
  - apply AtMostOneLive_app; [exact Hh|].
    apply bounded_from_app. split; [exact Hb|].
    rewrite Hlive. exact Hb2.
Qed.

Lemma history0_single : tracks history0 core_connected ∧ AtMostOneLive history0.
Proof.
  pose proof (refresh_preserves env0 0 "active:8201" core0 [] eq_refl AtMostOneLive_nil)
    as H.
  unfold history0, core_connected.
  destruct (refreshRequestForwardingConnection env0 0 "active:8201" core0)
    as [[r c'] t].
  exact H.
Qed.

(** Over any sequence of refreshes at most one connection is open at every
    point of the history, and it is the one the core holds. *)
Lemma refresh_all_single E calls (c : Core) (h : list Event) :
  tracks h c → AtMostOneLive h →
  tracks (h ++ (refresh_all E calls c).2) (refresh_all E calls c).1 ∧
  AtMostOneLive (h ++ (refresh_all E calls c).2).
Proof.
  revert c h. induction calls as [|[ctx clusterAddr] rest IH]; intros c h Htr Hh.
  - simpl. by rewrite (right_id_L [] (++)).
  - simpl.
    pose proof (refresh_preserves E ctx clusterAddr c h Htr Hh) as Hstep.
    destruct (refreshRequestForwardingConnection E ctx clusterAddr c)
      as [[r c1] t1].
    destruct Hstep as [Htr1 Hh1].
    specialize (IH c1 (h ++ t1) Htr1 Hh1).
    destruct (refresh_all E rest c1) as [c2 t2]. simpl in *.
    by rewrite (assoc_L (++)).
Qed.

(** C1: a refresh first clears the forwarding connection state: when the
    clear is through, the cancel function, the connection, the context, the
    client and the listener's client registration are gone, no connection
    is open and nothing has been set up yet; so at every point of the
    history at most one connection is open, and afterwards it is the one
    the core holds.  With an empty cluster address the refresh returns nil,
    leaves the cleared core and sets up nothing. *)
Theorem refresh_single_connection E (ctx : nat) (clusterAddr : string)
    (c : Core) (h : list Event) :
  tracks h c → AtMostOneLive h →
  ∃ r c' post,
    refreshRequestForwardingConnection E ctx clusterAddr c =
      (r, c', refresh_prologue E c ++ post) ∧
    clearForwardingClients E c = (Returned tt, cleared_core E c, clear_trace E c) ∧
    cleared E (cleared_core E c) ∧
    live_conns (h ++ refresh_prologue E c) = [] ∧
    forallb (λ e, negb (establishes e)) (refresh_prologue E c) = true ∧
    AtMostOneLive (h ++ refresh_prologue E c ++ post) ∧
    tracks (h ++ refresh_prologue E c ++ post) c' ∧
    (clusterAddr = "" →
       r = Returned None ∧ c' = cleared_core E c ∧
       forallb (λ e, negb (establishes e)) post = true ∧
       live_conns (h ++ refresh_prologue E c ++ post) = []).
Proof.
  intros Htr Hh.
  pose proof (refresh_preserves E ctx clusterAddr c h Htr Hh) as Hstep.
  destruct (refresh_run E ctx clusterAddr c) as (r & c' & post & Heq & Hc).
  rewrite Heq in Hstep. destruct Hstep as [Htr' Hh'].
  rewrite (assoc_L (++) [_; _] (clear_trace E c)) in Heq, Htr', Hh'.
  fold (refresh_prologue E c) in Heq, Htr', Hh'.
  destruct (clear_closes E c (live_conns h) Htr) as [Hlive _].
  fold (refresh_prologue E c) in Hlive.
  exists r, c', (post ++ [EvUnlock; EvLog Debug "done refreshing forwarding connection"]).
  split; [exact Heq|].
  split; [apply clearForwardingClients_run|].
  split; [apply cleared_core_cleared|].
  split; [unfold live_conns; by rewrite live_from_app|].
  split; [apply clear_establishes_nothing|].
  split; [exact Hh'|]. split; [exact Htr'|].
  intros Hempty.
  inversion Hc; subst; try contradiction.
  repeat split. exact Htr'.
Qed.

Lemma refresh_single_connection_witness :
  tracks history0 core_connected ∧
  ∃ r c' post,
    refreshRequestForwardingConnection env0 1 "other:8201" core_connected =
      (r, c', refresh_prologue env0 core_connected ++ post) ∧
    AtMostOneLive (history0 ++ refresh_prologue env0 core_connected ++ post) ∧
    tracks (history0 ++ refresh_prologue env0 core_connected ++ post) c'.
Proof.
  split; [apply history0_single|].
  destruct (refresh_single_connection env0 1 "other:8201" core_connected history0)
    as (r & c' & post & Heq & _ & _ & _ & _ & Hone & Htr & _).
  - apply history0_single.
  - apply history0_single.
  - exists r, c', post. split; [exact Heq|]. split; [exact Hone | exact Htr].
Defined.

(** ** Further properties of the forwarding code *)

(** X1: [clearForwardingClients] never fails and always leaves the cleared
    core; run again on its own result it changes nothing and neither
    cancels nor closes anything. *)
Theorem clearForwardingClients_idempotent E (c : Core) :
  (clearForwardingClients E c).1.1 = Returned tt ∧
  cleared E (clearForwardingClients E c).1.2 ∧
  (clearForwardingClients E (clearForwardingClients E c).1.2).1 =
    (Returned tt, (clearForwardingClients E c).1.2) ∧
  count_events is_cancel
    (clearForwardingClients E (clearForwardingClients E c).1.2).2 = 0%nat ∧
  count_events is_conn_close
    (clearForwardingClients E (clearForwardingClients E c).1.2).2 = 0%nat.
Proof.
  rewrite !clearForwardingClients_run. cbn [fst snd].
  split; [reflexivity|]. split; [apply cleared_core_cleared|].
  split.
  - f_equal. destruct c as [h ch hb lc lp lk l lead cancel conn dctx client next].
    unfold cleared_core. cbn. destruct l as [l|]; [|reflexivity].
    cbn. unfold RemoveClient. cbn. by rewrite delete_delete_eq.
  - unfold clear_trace. cbn. destruct (clusterListener c); split; reflexivity.
Qed.

Lemma count_events_app P t1 t2 :
  count_events P (t1 ++ t2) = (count_events P t1 + count_events P t2)%nat.
Proof. induction t1 as [|e t1 IH]; simpl; [reflexivity | rewrite IH; lia]. Qed.

Lemma clear_trace_counts E (c : Core) :
  count_events is_lock (clear_trace E c) = 0%nat ∧
  count_events is_unlock (clear_trace E c) = 0%nat ∧
  count_events is_heartbeat (clear_trace E c) = 0%nat.
Proof.
  unfold clear_trace.
  destruct (rpcClientConnCancelFunc c), (rpcClientConn c), (clusterListener c);
    repeat split.
Qed.

(** After a refresh the core holds no client unless the refresh returned
    nil and left the node connected. *)
Lemma refresh_ends_connected_or_not E (ctx : nat) (clusterAddr : string) (c : Core) :
  rpcForwardingClient (refreshRequestForwardingConnection E ctx clusterAddr c).1.2 = None ∨
  ((refreshRequestForwardingConnection E ctx clusterAddr c).1.1 = Returned None ∧
   connected E (refreshRequestForwardingConnection E ctx clusterAddr c).1.2
     (nextHandle c) (S (nextHandle c))).
Proof.
  destruct (refresh_run E ctx clusterAddr c) as (r & c' & post & -> & Hc).
  cbn [fst snd].
  inversion Hc; subst; try solve [left; reflexivity].
  right. split; [reflexivity|].
  repeat split. eexists. split; [reflexivity|]. apply lookup_insert_eq.
Qed.

(** X2: whatever the core held before, a refresh ends in one of three
    ways.  It leaves none of the four connection fields set and starts no
    heartbeat; or, with a positive heartbeat interval, it returns nil with
    all four set and fitting together (context, cancel function,
    connection, client, registration) and exactly one heartbeat started;
    or, with a non-positive heartbeat interval and a dial that succeeded,
    it panics in [time.NewTicker] with the connection, the context and the
    cancel function stored, no client and no heartbeat.  So with a positive
    interval the node is never left half-open. *)
Theorem refresh_all_or_nothing E (ctx : nat) (clusterAddr : string) (c : Core) :
  (disconnected (refreshRequestForwardingConnection E ctx clusterAddr c).1.2 ∧
   count_events is_heartbeat
     (refreshRequestForwardingConnection E ctx clusterAddr c).2 = 0%nat) ∨
  ((0 < clusterHeartbeatInterval c)%Z ∧
   (refreshRequestForwardingConnection E ctx clusterAddr c).1.1 = Returned None ∧
   connected E (refreshRequestForwardingConnection E ctx clusterAddr c).1.2
     (nextHandle c) (S (nextHandle c)) ∧
   count_events is_heartbeat
     (refreshRequestForwardingConnection E ctx clusterAddr c).2 = 1%nat) ∨
  (¬ (0 < clusterHeartbeatInterval c)%Z ∧
   (refreshRequestForwardingConnection E ctx clusterAddr c).1.1 =
     Panicked "non-positive interval for NewTicker" ∧
   rpcClientConn (refreshRequestForwardingConnection E ctx clusterAddr c).1.2 =
     Some (S (nextHandle c)) ∧
   rpcClientConnContext (refreshRequestForwardingConnection E ctx clusterAddr c).1.2 =
     Some (nextHandle c) ∧
   rpcClientConnCancelFunc (refreshRequestForwardingConnection E ctx clusterAddr c).1.2 =
     Some (nextHandle c) ∧
   rpcForwardingClient (refreshRequestForwardingConnection E ctx clusterAddr c).1.2 =
     None ∧
   count_events is_heartbeat
     (refreshRequestForwardingConnection E ctx clusterAddr c).2 = 0%nat).
Proof.
  destruct (refresh_run E ctx clusterAddr c) as (r & c' & post & -> & Hc).
  destruct (clear_trace_counts E c) as (_ & _ & Hhb).
  cbn [fst snd]. rewrite !count_events_app, Hhb.
  inversion Hc; subst; try solve [left; split; [repeat split | reflexivity]].
  - right. left. split; [assumption|]. split; [reflexivity|]. split; [|reflexivity].
    repeat split. eexists. split; [reflexivity|]. apply lookup_insert_eq.
  - right. right. split; [assumption|]. repeat split.
Qed.

(** X3: with a non-empty parseable address, a certificate, a listener, a
    dial that succeeds and a positive heartbeat interval, the refresh
    returns nil and leaves the node
    connected: the client is registered, a fresh context and a fresh
    connection are stored, the client's stub runs over that connection and
    its heartbeat, started once, under that context. *)
Theorem refresh_dial_success E (ctx : nat) (clusterAddr : string) (c : Core)
    (clusterURL : URL) (parsedCert : x509Certificate) (l : Listener) :
  clusterAddr ≠ "" →
  url_Parse E clusterAddr = inl clusterURL →
  localClusterParsedCert c = Stored (Some parsedCert) →
  clusterListener c = Some l →
  grpc_DialContext E (nextHandle c) (Host clusterURL) = None →
  (0 < clusterHeartbeatInterval c)%Z →
  ∃ c' t,
    refreshRequestForwardingConnection E ctx clusterAddr c = (Returned None, c', t) ∧
    connected E c' (nextHandle c) (S (nextHandle c)) ∧
    nextHandle c' = S (S (nextHandle c)) ∧
    t = refresh_prologue E c ++
        [EvAddClient (ALPN E); EvWithCancel ctx (nextHandle c);
         EvDialOk (nextHandle c) (Host clusterURL) (S (nextHandle c));
         EvNewTicker (clusterHeartbeatInterval c);
         EvStartHeartbeat (nextHandle c)] ++
        [EvUnlock; EvLog Debug "done refreshing forwarding connection"].
Proof.
  intros Hne Hparse Hcert Hl Hdial Hpos.
  destruct (refresh_run E ctx clusterAddr c) as (r & c' & post & Heq & Hc).
  rewrite Heq. clear Heq.
  destruct c as [h ch hb lc lp lk l0 lead cancel conn dctx client next].
  cbn in Hcert, Hl, Hdial, Hpos. subst lp l0. connects_cases Hc.
  eexists _, _. split; [reflexivity|].
  split; [|split; reflexivity].
  repeat split. eexists. split; [reflexivity|]. apply lookup_insert_eq.
Qed.

Lemma refresh_dial_success_witness :
  ∃ c' t,
    refreshRequestForwardingConnection env0 0 "active:8201" core0 =
      (Returned None, c', t) ∧
    connected env0 c' 0 1 ∧
    nextHandle c' = 2%nat ∧
    t = refresh_prologue env0 core0 ++
        [EvAddClient (ALPN env0); EvWithCancel 0 0;
         EvDialOk 0 "active:8201" 1;
         EvNewTicker 5;
         EvStartHeartbeat 0] ++
        [EvUnlock; EvLog Debug "done refreshing forwarding connection"].
Proof.
  apply (refresh_dial_success env0 0 "active:8201" core0
           {| Scheme := "https"; Host := "active:8201"; Path := ""; RawQuery := "" |}
           cert0 listener0);
    [discriminate | reflexivity..].
Defined.

(** X4: when the cluster address does not parse, the refresh returns the
    parser's error as it is, logs it, and leaves the node cleared: nothing
    is registered or dialled. *)
Theorem refresh_parse_error E (ctx : nat) (clusterAddr : string) (c : Core)
    (err : error) :
  clusterAddr ≠ "" →
  url_Parse E clusterAddr = inr err →
  refreshRequestForwardingConnection E ctx clusterAddr c =
    (Returned (Some err), cleared_core E c,
     refresh_prologue E c ++
     [EvLog Error "error parsing cluster address attempting to refresh forwarding connection"] ++
     [EvUnlock; EvLog Debug "done refreshing forwarding connection"]).
Proof.
  intros Hne Hparse.
  destruct (refresh_run E ctx clusterAddr c) as (r & c' & post & Heq & Hc).
  rewrite Heq. clear Heq.
  inversion Hc; subst; try congruence.
  rewrite Hparse in *. simplify_eq. reflexivity.
Qed.

Lemma refresh_parse_error_witness :
  refreshRequestForwardingConnection env0 0 "%" core_connected =
    (Returned (Some (errorString "invalid URL escape")),
     cleared_core env0 core_connected,
     refresh_prologue env0 core_connected ++
     [EvLog Error "error parsing cluster address attempting to refresh forwarding connection"] ++
     [EvUnlock; EvLog Debug "done refreshing forwarding connection"]).
Proof.
  apply (refresh_parse_error env0 0 "%" core_connected
           (errorString "invalid URL escape"));
    [discriminate | reflexivity].
Defined.

(** X5: on every path, the panicking one included, a refresh takes the
    write lock once, right after its first log line and before anything
    else, and releases it once, as its last call before the closing log
    line. *)
Theorem refresh_lock_discipline E (ctx : nat) (clusterAddr : string) (c : Core) :
  ∃ mid,
    (refreshRequestForwardingConnection E ctx clusterAddr c).2 =
      [EvLog Debug "refreshing forwarding connection"; EvLock] ++ mid ++
      [EvUnlock; EvLog Debug "done refreshing forwarding connection"] ∧
    count_events is_lock mid = 0%nat ∧
    count_events is_unlock mid = 0%nat.
Proof.
  destruct (refresh_run E ctx clusterAddr c) as (r & c' & post & -> & Hc).
  destruct (clear_trace_counts E c) as (Hl & Hu & _).
  exists (clear_trace E c ++ post). cbn [snd].
  split; [by rewrite <- !(assoc_L (++))|].
  rewrite !count_events_app, Hl, Hu.
  inversion Hc; subst; split; reflexivity.
Qed.

(** X6: a refresh that does not return nil, because it returned an error
    or panicked, leaves the node unable to forward whatever connection it
    held before: the next [ForwardRequest] returns [ErrCannotForward]
    without touching the request. *)
Theorem failed_refresh_cannot_forward E (ctx : nat) (clusterAddr : string)
    (c : Core) (req : Request) :
  (refreshRequestForwardingConnection E ctx clusterAddr c).1.1 ≠ Returned None →
  ForwardRequest E (refreshRequestForwardingConnection E ctx clusterAddr c).1.2 req =
    (Returned (0%Z, None, None, Some ErrCannotForward), req, [EvRLock; EvRUnlock]).
Proof.
  intros Hfail.
  destruct (refresh_ends_connected_or_not E ctx clusterAddr c)
    as [Hcl|[Hnil _]]; [|contradiction].
  unfold ForwardRequest; run. rewrite Hcl. reflexivity.
Qed.

Lemma failed_refresh_cannot_forward_witness :
  ForwardRequest env0
    (refreshRequestForwardingConnection env0 1 "unreachable:8201" core_connected).1.2
    req0 =
    (Returned (0%Z, None, None, Some ErrCannotForward), req0, [EvRLock; EvRUnlock]).
Proof.
  apply (failed_refresh_cannot_forward env0 1 "unreachable:8201" core_connected req0).
  intros H. vm_compute in H. discriminate H.
Defined.

(** X7: a refresh writes neither the HA flag, the heartbeat interval nor
    the identity cells; it never hands out a handle twice; and on the
    listener it leaves the handlers and the clients of every other tag as
    they were. *)
Theorem refresh_frame E (ctx : nat) (clusterAddr : string) (c : Core) :
  same_configuration c (refreshRequestForwardingConnection E ctx clusterAddr c).1.2 ∧
  (nextHandle c ≤
     nextHandle (refreshRequestForwardingConnection E ctx clusterAddr c).1.2)%nat ∧
  match clusterListener c,
        clusterListener (refreshRequestForwardingConnection E ctx clusterAddr c).1.2 with
  | Some l, Some l' =>
      handlers l' = handlers l ∧
      ∀ tag, tag ≠ ALPN E → clients l' !! tag = clients l !! tag
  | None, None => True
  | _, _ => False
  end.
Proof.
  destruct (refresh_run E ctx clusterAddr c) as (r & c' & post & -> & Hc).
  cbn [fst snd].
  destruct c as [h ch hb lc lp lk l lead cancel conn dctx client next].
  split; [|split].
  - inversion Hc; subst; repeat split.
  - inversion Hc; subst; cbn; lia.
  - inversion Hc; subst; cbn in *; destruct l as [l|];
      cbv [fmap option_fmap option_map] in *; simplify_eq; cbn; try done.
    all: split; [reflexivity|]; intros tag Hne.
    all: rewrite ?lookup_insert_ne by done; by rewrite lookup_delete_ne.
Qed.

Lemma startForwarding_run E (ctx : nat) (c : Core) :
  startForwarding E ctx c =
    (Returned None, started_core E c,
     [EvLog Debug "request forwarding setup function"; EvLock] ++
     clear_trace E c ++ [EvUnlock] ++
     match clusterListener c with
     | Some _ =>
         if ha c then [EvAddHandler (ALPN E)]
         else [EvLog Debug "request forwarding not setup"]
     | None => [EvLog Debug "request forwarding not setup"]
     end ++
     [EvLog Debug "leaving request forwarding setup function"]).
Proof.
  destruct c as [h ch hb lc lp lk l lead cancel conn dctx client next].
  destruct cancel, conn, l, h; reflexivity.
Qed.

(** X8: [startForwarding] always returns nil and leaves the node cleared of
    its client state.  On an HA node with a cluster listener it registers,
    under the forwarding tag, a new handler whose stop channel is open and
    whose RPC service is registered exactly when the core has a cluster
    handler; otherwise it leaves the listener's handlers as they were. *)
Theorem startForwarding_registers_handler E (ctx : nat) (c : Core) :
  (startForwarding E ctx c).1.1 = Returned None ∧
  cleared E (startForwarding E ctx c).1.2 ∧
  match clusterListener c, clusterListener (startForwarding E ctx c).1.2 with
  | Some l, Some l' =>
      if ha c then
        handlers l' =
          <[ALPN E := {| rf_ha := true;
                         fwRPCServer_registered := clusterHandler c;
                         fwRPCServer_stopped := false;
                         stopCh_closed := false |}]> (handlers l)
      else handlers l' = handlers l
  | None, None => True
  | _, _ => False
  end.
Proof.
  rewrite startForwarding_run. cbn [fst snd].
  split; [reflexivity|].
  destruct c as [h ch hb lc lp lk l lead cancel conn dctx client next].
  unfold started_core. cbn.
  destruct l as [l|]; [destruct h|]; cbn.
  - split; [|reflexivity]. repeat split. cbn. intros l' Hl'. simplify_eq. cbn.
    apply lookup_delete_eq.
  - split; [|reflexivity]. repeat split. cbn. intros l' Hl'. simplify_eq. cbn.
    apply lookup_delete_eq.
  - split; [|done]. repeat split. cbn. intros l' Hl'. discriminate Hl'.
Qed.

(** X9: [Stop] is good for one call: a second [Stop] on the same handler
    sleeps, then panics on closing the closed stop channel, and does not
    reach the RPC server's [Stop]. *)
Theorem Stop_twice_panics E (rf : requestForwardingHandler) :
  Stop E (Stop E rf).1.2 =
    (Panicked "close of closed channel", (Stop E rf).1.2,
     [EvSleep (ListenerAcceptDeadline E)]).
Proof.
  destruct rf as [h reg stopped closed].
  destruct closed; reflexivity.
Qed.

(** X10: with a stored identity, the certificate [ServerLookup] serves, the
    certificate [ClientLookup] presents when it presents one, the CA
    [CALookup] and [CACert] give and the name [ServerName] gives all come
    from the one stored identity: the same bytes, key and parsed
    certificate. *)
Theorem lookups_share_identity (c : Core) (b : bytes) (p : x509Certificate)
    (k : option ecdsaPrivateKey) (requestInfo : CertificateRequestInfo)
    (clientHello : ClientHelloInfo) :
  identity_stored c b (Some p) k →
  length b ≠ 0%nat →
  ServerLookup clientHello c =
    (Returned (Some {| Certificate := [b]; PrivateKey := k; Leaf := Some p |}, None),
     c, []) ∧
  (∀ cert, (ClientLookup requestInfo c).1.1 = Returned (Some cert, None) →
           (ServerLookup clientHello c).1.1 = Returned (Some cert, None)) ∧
  CALookup c = (Returned (Some [p], None), c, []) ∧
  CACert c = (Returned (Some p), c, []) ∧
  ServerName c = (Returned (SubjectCommonName p), c, []).
Proof.
  intros (Hb & Hp & Hk) Hlen.
  assert (ServerLookup clientHello c =
    (Returned (Some {| Certificate := [b]; PrivateKey := k; Leaf := Some p |}, None),
     c, [])) as Hserver.
  { unfold ServerLookup; run. rewrite Hb.
    destruct (decide (length b = 0%nat)); [contradiction|].
    rewrite Hk, Hp. reflexivity. }
  split; [exact Hserver|]. split; [|split; [|split]].
  - intros cert. rewrite Hserver. unfold ClientLookup; run. rewrite Hp, Hb.
    destruct (decide (length b = 0%nat)); [contradiction|].
    destruct (decide (RawIssuer p ∈ AcceptableCAs requestInfo)) as [Hin|Hnin].
    + rewrite (ClientLookup_range_hit _ _ _ _ k (Some p)) by done.
      cbn. intros H. by simplify_eq.
    + rewrite ClientLookup_range_miss by done. cbn. intros H. discriminate H.
  - unfold CALookup; run. by rewrite Hp.
  - unfold CACert; run. by rewrite Hp.
  - unfold ServerName; run. by rewrite Hp.
Qed.

Lemma lookups_share_identity_witness :
  CALookup core0 = (Returned (Some [cert0], None), core0, []) ∧
  ServerName core0 = (Returned "fw-node", core0, []).
Proof.
  destruct (lookups_share_identity core0 [Byte.x30; Byte.x82] cert0 (Some key0)
              {| AcceptableCAs := [] |} {| HelloServerName := "fw-node" |})
    as (_ & _ & Hca & _ & Hname).
  - repeat split.
  - simpl. lia.
  - split; [exact Hca | exact Hname].
Defined.

(** X11: with a nil parsed certificate, [CALookup] returns no certificates
    and the error "forwarding connection client but no local cert",
    [ServerName] returns the empty name and [CACert] returns nil. *)
Theorem lookups_without_parsed_certificate (c : Core) :
  localClusterParsedCert c = Stored None →
  CALookup c =
    (Returned (None, Some (errorString "forwarding connection client but no local cert")),
     c, []) ∧
  ServerName c = (Returned "", c, []) ∧
  CACert c = (Returned None, c, []).
Proof.
  intros Hp.
  repeat split; [unfold CALookup | unfold ServerName | unfold CACert];
    run; by rewrite Hp.
Qed.

Lemma lookups_without_parsed_certificate_witness :
  CALookup core_no_identity =
    (Returned (None, Some (errorString "forwarding connection client but no local cert")),
     core_no_identity, []) ∧
  ServerName core_no_identity = (Returned "", core_no_identity, []) ∧
  CACert core_no_identity = (Returned None, core_no_identity, []).
Proof.
  apply (lookups_without_parsed_certificate core_no_identity). reflexivity.
Defined.

Lemma ClientLookup_range_returns localCert issuer subjs (c c' : Core) r t :
  ClientLookup_range localCert issuer subjs c = (Returned r, c', t) →
  c' = c ∧ t = [] ∧
  match r with
  | None => issuer ∉ subjs
  | Some res =>
      issuer ∈ subjs ∧
      ∃ k p, localClusterParsedCert c = Stored p ∧
             res = (Some {| Certificate := [localCert]; PrivateKey := k; Leaf := p |},
                    None)
  end.
Proof.
  induction subjs as [|subj rest IH]; simpl.
  - intros H. injection H as <- <- <-. repeat split. apply not_elem_of_nil.
  - destruct (decide (subj = issuer)) as [->|Hne].
    + run. destruct (localClusterPrivateKey c) as [|k]; [discriminate|].
      destruct (localClusterParsedCert c) as [|p]; [discriminate|].
      intros H. injection H as <- <- <-. repeat split; [left|].
      by exists k, p.
    + intros H. destruct (IH H) as (-> & -> & Hr). repeat split.
      destruct r as [res|].
      * destruct Hr as [Hin Hres]. split; [by right | exact Hres].
      * intros Hin. apply elem_of_cons in Hin as [->|Hin]; [done | by apply Hr].
Qed.

(** X12: [ClientLookup] never returns an error value and never writes the
    core; when it returns a certificate, the stored certificate bytes are
    not empty, the certificate chain is exactly those bytes, the leaf is
    the stored parsed certificate, and that certificate's raw issuer is one
    of the peer's acceptable CAs. *)
Theorem ClientLookup_sound (c c' : Core) (requestInfo : CertificateRequestInfo)
    (cert : option tlsCertificate) (err : option error) (t : list Event) :
  ClientLookup requestInfo c = (Returned (cert, err), c', t) →
  err = None ∧ c' = c ∧ t = [] ∧
  ∀ crt, cert = Some crt →
    ∃ b p, localClusterCert c = Stored b ∧ length b ≠ 0%nat ∧
           localClusterParsedCert c = Stored (Some p) ∧
           RawIssuer p ∈ AcceptableCAs requestInfo ∧
           Certificate crt = [b] ∧ Leaf crt = Some p.
Proof.
  unfold ClientLookup; run.
  destruct (localClusterParsedCert c) as [|[p|]] eqn:Hp; [discriminate| |].
  2: { intros H. injection H as <- <- <- <-. repeat split. discriminate. }
  destruct (localClusterCert c) as [|b] eqn:Hb; [discriminate|].
  destruct (decide (length b = 0%nat)) as [Hz|Hnz].
  { intros H. injection H as <- <- <- <-. repeat split. discriminate. }
  destruct (ClientLookup_range b (RawIssuer p) (AcceptableCAs requestInfo) c)
    as [[[r|msg] c1] t1] eqn:Hrange; [|discriminate].
  apply ClientLookup_range_returns in Hrange as (-> & -> & Hr).
  destruct r as [res|].
  - destruct Hr as (Hin & k & p' & Hp' & ->).
    intros H. injection H as <- <- <- <-. repeat split.
    intros crt Hcrt. injection Hcrt as <-.
    rewrite Hp in Hp'. injection Hp' as <-.
    exists b, p. repeat split; done.
  - intros H. injection H as <- <- <- <-. repeat split. discriminate.
Qed.

Lemma ClientLookup_sound_witness :
  ∃ b p, localClusterCert core0 = Stored b ∧ length b ≠ 0%nat ∧
         localClusterParsedCert core0 = Stored (Some p) ∧
         RawIssuer p ∈ [[Byte.x30; Byte.x0a]] ∧
         [[Byte.x30; Byte.x82]] = [b] ∧ Some cert0 = Some p.
Proof.
  destruct (ClientLookup_sound core0 core0 {| AcceptableCAs := [[Byte.x30; Byte.x0a]] |}
              (Some {| Certificate := [[Byte.x30; Byte.x82]];
                       PrivateKey := Some key0; Leaf := Some cert0 |}) None []
              eq_refl) as (_ & _ & _ & H).
  exact (H _ eq_refl).
Defined.

(** A run with a client on a request whose URL pointer is nil: the read of
    the path panics before anything is deferred for the path. *)
Lemma ForwardRequest_nil_URL E c client req :
  rpcForwardingClient c = Some client →
  req_URL req = None →
  ForwardRequest E c req =
    (Panicked "invalid memory address or nil pointer dereference", req,
     [EvRLock; EvTimeNow; EvMeasureSince measure_key; EvRUnlock]).
Proof.
  intros Hcl Hu. destruct req as [m ru hd bd cx]. simpl in Hu. subst ru.
  unfold ForwardRequest. rewrite Hcl. reflexivity.
Qed.

(** The runs of [ForwardRequest], by what it finds. *)
Lemma ForwardRequest_cases E (c : Core) (req : Request) :
  (rpcForwardingClient c = None ∧
   ForwardRequest E c req =
     (Returned (0%Z, None, None, Some ErrCannotForward), req, [EvRLock; EvRUnlock])) ∨
  (∃ msg, ForwardRequest E c req =
     (Panicked msg, req, [EvRLock; EvTimeNow; EvMeasureSince measure_key; EvRUnlock])) ∨
  (∃ client u p,
     rpcForwardingClient c = Some client ∧
     req_URL req = Some u ∧
     req_ctx req !! "original_request_path" = Some (any_string p)).
Proof.
  destruct (rpcForwardingClient c) as [client|] eqn:Hcl.
  2: { left. split; [reflexivity|]. unfold ForwardRequest; run. by rewrite Hcl. }
  right. destruct (req_URL req) as [u|] eqn:Hu.
  2: { left. eexists. by apply (ForwardRequest_nil_URL E c client). }
  destruct (req_ctx req !! "original_request_path") as [[p|n|b]|] eqn:Hp.
  - right. by exists client, u, p.
  - left. apply (ForwardRequest_no_path E c client req Hcl). intros s. by rewrite Hp.
  - left. apply (ForwardRequest_no_path E c client req Hcl). intros s. by rewrite Hp.
  - left. apply (ForwardRequest_no_path E c client req Hcl). intros s. by rewrite Hp.
Qed.

(** X13: whenever [ForwardRequest] returns an error, the status is 0, the
    header and the body are nil, and the error is [ErrCannotForward] or one
    of its three fixed messages: the serializer's or the RPC's own error is
    never handed to the caller. *)
Theorem ForwardRequest_error_results E (c : Core) (req : Request)
    (status : Z) (header : option (gmap string (list string)))
    (body : option bytes) (err : error) :
  (ForwardRequest E c req).1.1 = Returned (status, header, body, Some err) →
  status = 0%Z ∧ header = None ∧ body = None ∧ err ∈ forward_errors.
Proof.
  destruct (ForwardRequest_cases E c req)
    as [[_ ->]|[[msg ->]|(client & u & p & Hcl & Hu & Hp)]].
  - cbn. intros H. simplify_eq. repeat split. unfold forward_errors. set_solver.
  - cbn. intros H. discriminate H.
  - rewrite (ForwardRequest_connected E c client req u p Hcl Hu Hp).
    destruct (GenerateForwardedRequest E (rewritten req u p)).1 as [[freq|] [e|]]; cbn;
      try (intros H; simplify_eq; repeat split; unfold forward_errors; set_solver).
    destruct (RequestForwardingClient_ForwardRequest E client freq); cbn;
      intros H; simplify_eq; repeat split; unfold forward_errors; set_solver.
Qed.

Lemma ForwardRequest_error_results_witness :
  0%Z = 0%Z ∧ (None : option (gmap string (list string))) = None ∧
  (None : option bytes) = None ∧ ErrCannotForward ∈ forward_errors.
Proof.
  apply (ForwardRequest_error_results env0 core0 req0 0%Z None None ErrCannotForward).
  reflexivity.
Defined.

(** X14: the error counter is incremented once for each RPC that was sent
    and failed, and never otherwise: not when the node cannot forward, not
    when the serializer fails, not on success. *)
Theorem ForwardRequest_counts_rpc_failures E (c : Core) (req : Request) :
  count_events is_incr_counter (ForwardRequest E c req).2 =
    failed_sends E (ForwardRequest E c req).2 ∧
  (count_events is_incr_counter (ForwardRequest E c req).2 ≤ 1)%nat.
Proof.
  destruct (ForwardRequest_cases E c req)
    as [[_ ->]|[[msg ->]|(client & u & p & Hcl & Hu & Hp)]].
  - split; [reflexivity | cbn; lia].
  - split; [reflexivity | cbn; lia].
  - rewrite (ForwardRequest_connected E c client req u p Hcl Hu Hp).
    destruct (GenerateForwardedRequest E (rewritten req u p)).1 as [[freq|] [e|]];
      try (split; [reflexivity | cbn; lia]).
    destruct (RequestForwardingClient_ForwardRequest E client freq) eqn:Hrpc;
      (split; [unfold failed_sends; cbn; rewrite Hrpc; reflexivity | cbn; lia]).
Qed.

(** X15: on every path, the panicking ones included, [ForwardRequest] takes
    the read lock first and releases it last, each once; past the
    nil-client check it reads the clock first and records the duration
    metric once, as its last call before the unlock. *)
Theorem ForwardRequest_lock_and_duration E (c : Core) (req : Request) :
  ∃ mid,
    (ForwardRequest E c req).2 = [EvRLock] ++ mid ++ [EvRUnlock] ∧
    count_events is_rlock mid = 0%nat ∧
    count_events is_runlock mid = 0%nat ∧
    match rpcForwardingClient c with
    | None => mid = []
    | Some _ =>
        ∃ mid', mid = [EvTimeNow] ++ mid' ++ [EvMeasureSince measure_key] ∧
                count_events is_measure_since mid' = 0%nat
    end.
Proof.
  destruct (ForwardRequest_cases E c req)
    as [[Hnil ->]|[[msg Hrun]|(client & u & p & Hcl & Hu & Hp)]].
  - exists []. rewrite Hnil. repeat split.
  - destruct (rpcForwardingClient c) as [client|] eqn:Hcl.
    + rewrite Hrun. exists [EvTimeNow; EvMeasureSince measure_key].
      repeat split. by exists [].
    + exfalso. revert Hrun. unfold ForwardRequest; run. rewrite Hcl. discriminate.
  - rewrite (ForwardRequest_connected E c client req u p Hcl Hu Hp), Hcl.
    set (gen := EvGenerateForwardedRequest (rewritten req u p)).
    destruct (GenerateForwardedRequest E (rewritten req u p)).1 as [[freq|] [e|]];
      [| destruct (RequestForwardingClient_ForwardRequest E client freq) | |].
    + exists ([EvTimeNow] ++
              [gen; EvLog Error "error creating forwarding RPC request"] ++
              [EvMeasureSince measure_key]).
      repeat split. by eexists.
    + exists ([EvTimeNow] ++ [gen; EvRPCForwardRequest client freq] ++
              [EvMeasureSince measure_key]).
      repeat split. by eexists.
    + exists ([EvTimeNow] ++
              [gen; EvRPCForwardRequest client freq;
               EvIncrCounter ["ha"; "rpc"; "client"; "forward"; "errors"];
               EvLog Error "error during forwarded RPC request"] ++
              [EvMeasureSince measure_key]).
      repeat split. by eexists.
    + exists ([EvTimeNow] ++
              [gen; EvLog Error "error creating forwarding RPC request"] ++
              [EvMeasureSince measure_key]).
      repeat split. by eexists.
    + exists ([EvTimeNow] ++
              [gen; EvLog Error "got nil forwarding RPC request"] ++
              [EvMeasureSince measure_key]).
      repeat split. by eexists.
Qed.

(** *** Contexts and heartbeats *)

Lemma neutral_trace (t : list Event) :
  forallb (λ e, negb (connection_event e)) t = true →
  ∀ l, foldl step_live l t = l ∧ foldl step_ctx l t = l ∧ foldl step_heartbeat l t = l.
Proof.
  induction t as [|e t IH]; intros Hn l; [done|].
  simpl in Hn. apply andb_true_iff in Hn as [He Ht].
  specialize (IH Ht). simpl.
  destruct e; try discriminate He; simpl; apply IH.
Qed.

Lemma neutral_bounded (t : list Event) (l : list nat) :
  forallb (λ e, negb (connection_event e)) t = true →
  (length l ≤ 1)%nat → bounded_from l t.
Proof.
  revert l. induction t as [|e t IH]; intros l Hn Hl; [done|].
  simpl in Hn. apply andb_true_iff in Hn as [He Ht]. simpl.
  destruct e; try discriminate He; simpl; (split; [exact Hl | by apply IH]).
Qed.

Lemma ForwardRequest_neutral E (c : Core) (req : Request) :
  forallb (λ e, negb (connection_event e)) (ForwardRequest E c req).2 = true.
Proof.
  destruct (ForwardRequest_cases E c req)
    as [[_ ->]|[[msg ->]|(client & u & p & Hcl & Hu & Hp)]]; [reflexivity..|].
  rewrite (ForwardRequest_connected E c client req u p Hcl Hu Hp).
  destruct (GenerateForwardedRequest E (rewritten req u p)).1 as [[freq|] [e|]]; try reflexivity.
  destruct (RequestForwardingClient_ForwardRequest E client freq); reflexivity.
Qed.

(** From a history that accounts for the core, the clear ends the context
    and the heartbeat the core holds and closes its connection. *)
Lemma clear_accounts E (c : Core) (h pre : list Event) :
  accounted h c →
  forallb (λ e, negb (connection_event e)) pre = true →
  live_conns (h ++ pre ++ clear_trace E c) = [] ∧
  live_ctxs (h ++ pre ++ clear_trace E c) = [] ∧
  live_heartbeats (h ++ pre ++ clear_trace E c) = [] ∧
  bounded_from (live_conns h) (pre ++ clear_trace E c).
Proof.
  intros (Hconn & Hctx & Hhb & Hco) Hpre.
  unfold live_conns, live_from, live_ctxs, live_heartbeats in *.
  rewrite !foldl_app, Hconn, Hctx, Hhb.
  destruct (neutral_trace pre Hpre (option_list (rpcClientConn c))) as (-> & _ & _).
  destruct (neutral_trace pre Hpre (option_list (rpcClientConnCancelFunc c)))
    as (_ & -> & _).
  destruct (neutral_trace pre Hpre
              (option_list (echoContext <$> rpcForwardingClient c))) as (_ & _ & ->).
  assert (bounded_from (option_list (rpcClientConn c)) (pre ++ clear_trace E c)) as Hb.
  { apply bounded_from_app. split.
    - apply neutral_bounded; [exact Hpre|]. destruct (rpcClientConn c); simpl; lia.
    - unfold live_from.
      destruct (neutral_trace pre Hpre (option_list (rpcClientConn c))) as (Hn & _ & _).
      rewrite Hn.
      unfold clear_trace.
      destruct (rpcClientConnCancelFunc c), (rpcClientConn c), (clusterListener c);
        simpl; rewrite ?filter_ne_singleton; simpl; repeat split; lia. }
  refine (conj _ (conj _ (conj _ Hb))); unfold clear_trace.
  - destruct (rpcClientConnCancelFunc c), (rpcClientConn c), (clusterListener c);
      simpl; by rewrite ?filter_ne_singleton.
  - destruct (rpcClientConnCancelFunc c), (rpcClientConn c), (clusterListener c);
      simpl; by rewrite ?filter_ne_singleton.
  - destruct (rpcForwardingClient c) as [client|] eqn:Hcl.
    + rewrite (Hco client eq_refl).
      destruct (rpcClientConn c), (clusterListener c); simpl;
        by rewrite ?filter_ne_singleton.
    + destruct (rpcClientConnCancelFunc c), (rpcClientConn c), (clusterListener c);
        reflexivity.
Qed.

(** How a refresh goes on after the clear, read for contexts and
    heartbeats. *)
Lemma connects_accounts E ctx clusterAddr (c : Core) r c' post :
  connects E ctx clusterAddr (cleared_core E c) r c' post →
  let t := post ++ [EvUnlock; EvLog Debug "done refreshing forwarding connection"] in
  live_from [] t = option_list (rpcClientConn c') ∧
  foldl step_ctx [] t = option_list (rpcClientConnCancelFunc c') ∧
  foldl step_heartbeat [] t = option_list (echoContext <$> rpcForwardingClient c') ∧
  (∀ client, rpcForwardingClient c' = Some client →
             rpcClientConnCancelFunc c' = Some (echoContext client)) ∧
  bounded_from [] t ∧
  (r ≠ Returned None →
   (0 < clusterHeartbeatInterval c)%Z ∨ (∃ err, r = Returned (Some err)) →
   disconnected c').
Proof.
  intros Hc.
  inversion Hc; subst; cbn; rewrite ?filter_ne_singleton;
    repeat split; try lia; try done.
  all: try (intros client Hcl; by simplify_eq).
  all: try (by case_decide).
  all: match goal with
       | H : _ ∨ _ |- _ =>
           destruct H as [Hpos|[err Herr]]; [contradiction | discriminate Herr]
       end.
Qed.

Lemma refresh_accounted E ctx clusterAddr (c : Core) (h : list Event) :
  accounted h c → AtMostOneLive h →
  accounted (h ++ (refreshRequestForwardingConnection E ctx clusterAddr c).2)
    (refreshRequestForwardingConnection E ctx clusterAddr c).1.2 ∧
  AtMostOneLive (h ++ (refreshRequestForwardingConnection E ctx clusterAddr c).2) ∧
  ((refreshRequestForwardingConnection E ctx clusterAddr c).1.1 ≠ Returned None →
   (0 < clusterHeartbeatInterval c)%Z ∨
   (∃ err, (refreshRequestForwardingConnection E ctx clusterAddr c).1.1 =
             Returned (Some err)) →
   disconnected (refreshRequestForwardingConnection E ctx clusterAddr c).1.2).
Proof.
  intros Hacc Hone.
  destruct (refresh_run E ctx clusterAddr c) as (r & c' & post & -> & Hc).
  cbn [fst snd].
  destruct (clear_accounts E c h
              [EvLog Debug "refreshing forwarding connection"; EvLock] Hacc eq_refl)
    as (Hconn & Hctx & Hhb & Hb).
  destruct (connects_accounts E ctx clusterAddr c r c' post Hc)
    as (Hconn' & Hctx' & Hhb' & Hco' & Hb' & Hfail).
  rewrite (assoc_L (++) [_; _] (clear_trace E c)).
  rewrite (assoc_L (++) h).
  unfold live_conns, live_from, live_ctxs, live_heartbeats in *.
  split; [|split; [|exact Hfail]].
  - unfold accounted, live_conns, live_from, live_ctxs, live_heartbeats.
    rewrite !(foldl_app _ (h ++ _)), Hconn, Hctx, Hhb. done.
  - rewrite <- (assoc_L (++) h). apply AtMostOneLive_app; [exact Hone|].
    apply bounded_from_app. split; [exact Hb|].
    unfold live_conns, live_from in *. rewrite foldl_app in Hconn.
    rewrite Hconn. exact Hb'.
Qed.

(** X16: from a history that accounts for the core, a refresh keeps the
    account: the open connections, the uncancelled dial contexts and the
    running heartbeats are again exactly those the core holds.  A refresh
    that returns an error, and with a positive heartbeat interval every
    refresh that does not return nil, leaves none of them: the failed
    dial's context is cancelled, no connection stays open, no heartbeat
    runs.  (With a non-positive interval the refresh can panic in
    [time.NewTicker] after the dial; the connection and the context it then
    leaves are the ones the core holds.) *)
Theorem refresh_leaks_nothing E (ctx : nat) (clusterAddr : string) (c : Core)
    (h : list Event) :
  accounted h c → AtMostOneLive h →
  accounted (h ++ (refreshRequestForwardingConnection E ctx clusterAddr c).2)
    (refreshRequestForwardingConnection E ctx clusterAddr c).1.2 ∧
  ((refreshRequestForwardingConnection E ctx clusterAddr c).1.1 ≠ Returned None →
   (0 < clusterHeartbeatInterval c)%Z ∨
   (∃ err, (refreshRequestForwardingConnection E ctx clusterAddr c).1.1 =
             Returned (Some err)) →
   live_conns (h ++ (refreshRequestForwardingConnection E ctx clusterAddr c).2) = [] ∧
   live_ctxs (h ++ (refreshRequestForwardingConnection E ctx clusterAddr c).2) = [] ∧
   live_heartbeats (h ++ (refreshRequestForwardingConnection E ctx clusterAddr c).2) = []).
Proof.
  intros Hacc Hone.
  destruct (refresh_accounted E ctx clusterAddr c h Hacc Hone) as (Hacc' & _ & Hfail).
  split; [exact Hacc'|].
  intros Hr Hwhy. destruct (Hfail Hr Hwhy) as (Hcancel & Hconn & _ & Hclient).
  destruct Hacc' as (H1 & H2 & H3 & _).
  rewrite H1, H2, H3, Hcancel, Hconn, Hclient. done.
Qed.

Lemma neutral_accounted (h t : list Event) (c : Core) :
  forallb (λ e, negb (connection_event e)) t = true →
  accounted h c → AtMostOneLive h →
  accounted (h ++ t) c ∧ AtMostOneLive (h ++ t).
Proof.
  intros Hn (Hconn & Hctx & Hhb & Hco) Hone.
  split.
  - unfold accounted, live_conns, live_from, live_ctxs, live_heartbeats in *.
    rewrite !foldl_app, Hconn, Hctx, Hhb.
    destruct (neutral_trace t Hn (option_list (rpcClientConn c))) as (-> & _ & _).
    destruct (neutral_trace t Hn (option_list (rpcClientConnCancelFunc c)))
      as (_ & -> & _).
    destruct (neutral_trace t Hn (option_list (echoContext <$> rpcForwardingClient c)))
      as (_ & _ & ->).
    done.
  - apply AtMostOneLive_app; [exact Hone|].
    apply neutral_bounded; [exact Hn|].
    rewrite Hconn. destruct (rpcClientConn c); simpl; lia.
Qed.

Lemma startForwarding_accounted E ctx (c : Core) (h : list Event) :
  accounted h c → AtMostOneLive h →
  accounted (h ++ (startForwarding E ctx c).2) (startForwarding E ctx c).1.2 ∧
  AtMostOneLive (h ++ (startForwarding E ctx c).2).
Proof.
  intros Hacc Hone. rewrite startForwarding_run. cbn [fst snd].
  destruct (clear_accounts E c h
              [EvLog Debug "request forwarding setup function"; EvLock] Hacc eq_refl)
    as (Hconn & Hctx & Hhb & Hb).
  rewrite (assoc_L (++) [_; _] (clear_trace E c)), (assoc_L (++) h).
  assert (accounted (h ++ [EvLog Debug "request forwarding setup function"; EvLock] ++
                     clear_trace E c) (started_core E c)) as Hacc'.
  { unfold accounted. rewrite Hconn, Hctx, Hhb. unfold started_core.
    destruct (clusterListener c); [destruct (ha c)|]; repeat split;
      intros client H; discriminate H. }
  apply neutral_accounted; [|exact Hacc'|].
  - destruct (clusterListener c); [destruct (ha c)|]; reflexivity.
  - by apply AtMostOneLive_app.
Qed.

Lemma run_op_accounted E (o : op) (c : Core) (h : list Event) :
  accounted h c → AtMostOneLive h →
  accounted (h ++ (run_op E o c).2) (run_op E o c).1 ∧
  AtMostOneLive (h ++ (run_op E o c).2).
Proof.
  intros Hacc Hone. destruct o as [ctx clusterAddr|ctx|req]; simpl.
  - pose proof (refresh_accounted E ctx clusterAddr c h Hacc Hone) as (H1 & H2 & _).
    destruct (refreshRequestForwardingConnection E ctx clusterAddr c) as [[r c'] t].
    by split.
  - pose proof (startForwarding_accounted E ctx c h Hacc Hone) as (H1 & H2).
    destruct (startForwarding E ctx c) as [[r c'] t]. by split.
  - apply neutral_accounted; [apply ForwardRequest_neutral | done..].
Qed.

(** X17: over any sequence of refreshes, [startForwarding] calls and
    forwarded requests, from a history that accounts for the core: at
    every point of the history at most one connection is open, and after
    the sequence the open connections, the uncancelled contexts and the
    running heartbeats are exactly those the core holds (at most one of
    each). *)
Theorem run_ops_single_connection E (ops : list op) (c : Core) (h : list Event) :
  accounted h c → AtMostOneLive h →
  accounted (h ++ (run_ops E ops c).2) (run_ops E ops c).1 ∧
  AtMostOneLive (h ++ (run_ops E ops c).2) ∧
  (length (live_ctxs (h ++ (run_ops E ops c).2)) ≤ 1)%nat ∧
  (length (live_heartbeats (h ++ (run_ops E ops c).2)) ≤ 1)%nat.
Proof.
  intros Hacc Hone.
  assert (accounted (h ++ (run_ops E ops c).2) (run_ops E ops c).1 ∧
          AtMostOneLive (h ++ (run_ops E ops c).2)) as [Hacc' Hone'].
  { revert c h Hacc Hone. induction ops as [|o rest IH]; intros c h Hacc Hone.
    - simpl. by rewrite (right_id_L [] (++)).
    - simpl. pose proof (run_op_accounted E o c h Hacc Hone) as [H1 H2].
      destruct (run_op E o c) as [c1 t1]. cbn [fst snd] in *.
      specialize (IH c1 (h ++ t1) H1 H2).
      destruct (run_ops E rest c1) as [c2 t2]. cbn [fst snd] in *.
      by rewrite (assoc_L (++)). }
  split; [exact Hacc'|]. split; [exact Hone'|].
  destruct Hacc' as (_ & -> & -> & _).
  split.
  - destruct (rpcClientConnCancelFunc _); simpl; lia.
  - destruct (rpcForwardingClient _); simpl; lia.
Qed.

Lemma run_ops_single_connection_witness :
  AtMostOneLive
    ([] ++ (run_ops env0
              [OpStartForwarding 0; OpRefresh 0 "active:8201"; OpForwardRequest req0;
               OpRefresh 1 "unreachable:8201"; OpForwardRequest req0;
               OpRefresh 2 ""] core0).2).
Proof.
  apply (run_ops_single_connection env0
           [OpStartForwarding 0; OpRefresh 0 "active:8201"; OpForwardRequest req0;
            OpRefresh 1 "unreachable:8201"; OpForwardRequest req0;
            OpRefresh 2 ""] core0 []).
  - repeat split. intros client H. discriminate H.
  - apply AtMostOneLive_nil.
Defined.

Lemma refresh_leaks_nothing_witness :
  accounted
    ([] ++ (refreshRequestForwardingConnection env0 0 "unreachable:8201" core0).2)
    (refreshRequestForwardingConnection env0 0 "unreachable:8201" core0).1.2.
Proof.
  apply (refresh_leaks_nothing env0 0 "unreachable:8201" core0 []).
  - repeat split. intros client H. discriminate H.
  - apply AtMostOneLive_nil.
Defined.

(** *** Refreshing, then forwarding *)

(** X18: after [startForwarding], and after a refresh with the empty
    address, the node cannot forward, whatever it held before:
    [ForwardRequest] returns [ErrCannotForward] and leaves the request
    alone. *)
Theorem no_forwarding_after_start_or_empty_refresh E (ctx : nat) (c : Core)
    (req : Request) :
  ForwardRequest E (startForwarding E ctx c).1.2 req =
    (Returned (0%Z, None, None, Some ErrCannotForward), req, [EvRLock; EvRUnlock]) ∧
  ForwardRequest E (refreshRequestForwardingConnection E ctx "" c).1.2 req =
    (Returned (0%Z, None, None, Some ErrCannotForward), req, [EvRLock; EvRUnlock]).
Proof.
  split.
  - rewrite startForwarding_run. cbn [fst snd].
    assert (rpcForwardingClient (started_core E c) = None) as Hcl.
    { unfold started_core. destruct (clusterListener c); [destruct (ha c)|]; reflexivity. }
    unfold ForwardRequest; run. rewrite Hcl. reflexivity.
  - destruct (refresh_run E ctx "" c) as (r & c' & post & -> & Hc).
    cbn [fst snd]. inversion Hc; subst; try done.
Qed.

(** X19: after a refresh that dialled successfully on a node with a
    positive heartbeat interval, a request with a URL and the context path
    whose serialization succeeds is sent exactly once, through the client the refresh built, whose stub runs over the
    connection just dialled. *)
Theorem forward_after_refresh_uses_new_connection E (ctx : nat)
    (clusterAddr : string) (c : Core) (clusterURL : URL)
    (parsedCert : x509Certificate) (l : Listener)
    (req : Request) (u : URL) (p : string) (freq : ForwardedRequest) :
  clusterAddr ≠ "" →
  url_Parse E clusterAddr = inl clusterURL →
  localClusterParsedCert c = Stored (Some parsedCert) →
  clusterListener c = Some l →
  grpc_DialContext E (nextHandle c) (Host clusterURL) = None →
  (0 < clusterHeartbeatInterval c)%Z →
  req_URL req = Some u →
  req_ctx req !! "original_request_path" = Some (any_string p) →
  (GenerateForwardedRequest E (rewritten req u p)).1 = (Some freq, None) →
  sent (ForwardRequest E
          (refreshRequestForwardingConnection E ctx clusterAddr c).1.2 req).2 =
    [({| fc_conn := Some (S (nextHandle c));
         echoTicker := clusterHeartbeatInterval c;
         echoContext := nextHandle c |}, freq)] ∧
  live_from [] (refreshRequestForwardingConnection E ctx clusterAddr c).2 =
    [S (nextHandle c)].
Proof.
  intros Hne Hparse Hcert Hl Hdial Hpos Hu Hp Hgen.
  destruct (refresh_run E ctx clusterAddr c) as (r & c' & post & Heq & Hc).
  rewrite Heq. clear Heq. cbn [fst snd].
  destruct c as [h ch hb lc lp lk l0 lead cancel conn dctx client next].
  cbn in Hcert, Hl, Hdial, Hpos. subst lp l0. connects_cases Hc.
  split.
  - erewrite ForwardRequest_connected; [|reflexivity|exact Hu|exact Hp].
    rewrite Hgen.
    destruct (RequestForwardingClient_ForwardRequest E _ freq); reflexivity.
  - unfold clear_trace. cbn.
    destruct cancel, conn; simpl; rewrite ?filter_ne_singleton; try reflexivity.
Qed.

Lemma forward_after_refresh_uses_new_connection_witness :
  sent (ForwardRequest env0
          (refreshRequestForwardingConnection env0 0 "active:8201" core0).1.2 req0).2 =
    [({| fc_conn := Some 1%nat; echoTicker := 5; echoContext := 0%nat |}, freq0)] ∧
  live_from [] (refreshRequestForwardingConnection env0 0 "active:8201" core0).2 =
    [1%nat].
Proof.
  apply (forward_after_refresh_uses_new_connection env0 0 "active:8201" core0
           {| Scheme := "https"; Host := "active:8201"; Path := ""; RawQuery := "" |}
           cert0 listener0 req0 url0 "/v1/secret/foo" freq0);
    [discriminate | reflexivity..].
Defined.

(** *** Cells never stored *)

(** X20: the loads of the parsed-certificate cell are unchecked type
    assertions: on a core where that cell has never been stored,
    [ClientLookup], [CALookup], [ServerName] and [CACert] panic without
    writing the core, and a refresh to a non-empty parseable address
    panics after the clear, with the node cleared and the lock released. *)
Theorem unset_certificate_cell_panics E (ctx : nat) (clusterAddr : string)
    (c : Core) (clusterURL : URL) (requestInfo : CertificateRequestInfo) :
  localClusterParsedCert c = Unset →
  clusterAddr ≠ "" →
  url_Parse E clusterAddr = inl clusterURL →
  (∃ msg, ClientLookup requestInfo c = (Panicked msg, c, [])) ∧
  (∃ msg, CALookup c = (Panicked msg, c, [])) ∧
  (∃ msg, ServerName c = (Panicked msg, c, [])) ∧
  (∃ msg, CACert c = (Panicked msg, c, [])) ∧
  (∃ msg, refreshRequestForwardingConnection E ctx clusterAddr c =
     (Panicked msg, cleared_core E c,
      refresh_prologue E c ++
      [EvUnlock; EvLog Debug "done refreshing forwarding connection"])).
Proof.
  intros Hp Hne Hparse.
  repeat split.
  - eexists. unfold ClientLookup; run. by rewrite Hp.
  - eexists. unfold CALookup; run. by rewrite Hp.
  - eexists. unfold ServerName; run. by rewrite Hp.
  - eexists. unfold CACert; run. by rewrite Hp.
  - destruct (refresh_run E ctx clusterAddr c) as (r & c' & post & Heq & Hc).
    rewrite Heq. clear Heq.
    inversion Hc; subst; cbn in *; try congruence.
    eexists. reflexivity.
Qed.

Lemma unset_certificate_cell_panics_witness :
  ∃ msg, refreshRequestForwardingConnection env0 0 "active:8201" core_never_stored =
    (Panicked msg, cleared_core env0 core_never_stored,
     refresh_prologue env0 core_never_stored ++
     [EvUnlock; EvLog Debug "done refreshing forwarding connection"]).
Proof.
  apply (unset_certificate_cell_panics env0 0 "active:8201" core_never_stored
           {| Scheme := "https"; Host := "active:8201"; Path := ""; RawQuery := "" |}
           {| AcceptableCAs := [] |});
    [reflexivity | discriminate | reflexivity].
Defined.
